(** * Maestro servo controller (movement.py): protocol controller model

    A shallow embedding of the [Controller] class of [movement.py]: the
    Pololu command framing, the per-channel tables [Targets], [Mins] and
    [Maxs], the range clamping of [setTarget] and the request/response
    queries [getPosition], [isMoving] and [getMovingState].

    Python integers are unbounded, so they are modelled by [Z]; [&] is
    [Z.land], [>>] is [Z.shiftr] and [<<] is [Z.shiftl] (all three agree with
    Python on negative numbers too).  A Python [str] is the list of its code
    points.  Methods mutate the controller object and may raise, so a method
    is a function from the controller to an outcome together with the
    controller as the call leaves it. *)

From stdpp Require Import base list numbers strings.

Open Scope Z_scope.

(** ** Python primitives *)

Inductive exn : Type :=
  | IndexError            (* list index out of range *)
  | ValueError            (* chr() arg not in range *)
  | OverflowError         (* chr() arg does not fit the C integer it is converted to *)
  | TypeError             (* ord() of something that is not one character *)
  | UnicodeEncodeError    (* bytes(s, 'latin-1') with a code point above 255 *)
  | PortNotOpenError      (* pyserial: operation on a port that is not open *)
  | SerialException.      (* pyserial: the device could not be opened, written or read *)

(** What a call does: return a value, raise, or block for ever (a read on a
    port without timeout to which the device sends nothing). *)
Inductive outcome (A : Type) : Type :=
  | Ok (a : A)
  | Raise (e : exn)
  | Hang.
Arguments Ok {A} a.
Arguments Raise {A} e.
Arguments Hang {A}.

Definition str := list Z.

(** A value that is a text string or a byte string.  In Python 3 the two
    types are distinct and never compare equal; Python 2 has only [str]. *)
Inductive pyobj : Type :=
  | PStr (s : str)
  | PBytes (b : list Z).

Definition list_Z_eqb (a b : list Z) : bool := bool_decide (a = b).

(** [x == y] on strings and byte strings. *)
Definition py_eq (x y : pyobj) : bool :=
  match x, y with
  | PStr a, PStr b => list_Z_eqb a b
  | PBytes a, PBytes b => list_Z_eqb a b
  | _, _ => false
  end.

(** [ord(x)]: defined on a string or byte string of length one. *)
Definition ord (x : pyobj) : outcome Z :=
  match x with
  | PStr [c] => Ok c
  | PBytes [b] => Ok b
  | _ => Raise TypeError
  end.

(** [l[i]] on a Python list: a negative index counts from the end. *)
Definition py_index (l : list Z) (i : Z) : option nat :=
  let n := Z.of_nat (length l) in
  if bool_decide (0 <= i < n) then Some (Z.to_nat i)
  else if bool_decide (- n <= i < 0) then Some (Z.to_nat (n + i))
  else None.

Definition getitem (l : list Z) (i : Z) : outcome Z :=
  match py_index l i with
  | Some k => match l !! k with Some v => Ok v | None => Raise IndexError end
  | None => Raise IndexError
  end.

Definition setitem (l : list Z) (i : Z) (v : Z) : outcome (list Z) :=
  match py_index l i with
  | Some k => Ok (<[k := v]> l)
  | None => Raise IndexError
  end.

(** ** The serial port (pyserial's [serial.Serial])

    The port is the controller's collaborator.  [tx] is every byte written so
    far, oldest first; [rx] is what the device is going to send; [line_ok]
    tells whether the operating system can still reach the device. *)
Record Serial : Type := mkSerial {
  is_open : bool;
  line_ok : bool;
  tx : list Z;
  rx : list Z
}.

Definition Serial_close (p : Serial) : Serial :=
  mkSerial false (line_ok p) (tx p) (rx p).

Definition Serial_write (data : list Z) (p : Serial) : outcome unit * Serial :=
  if negb (is_open p) then (Raise PortNotOpenError, p)
  else if negb (line_ok p) then (Raise SerialException, p)
  else (Ok tt, mkSerial (is_open p) (line_ok p) (tx p ++ data) (rx p)).

(** ** The controller object *)

Record Controller : Type := mkController {
  usb : Serial;
  PololuCmd : str;
  Targets : list Z;
  Mins : list Z;
  Maxs : list Z
}.

(** A method: runs on the controller, leaves an outcome and the controller. *)
Definition M (A : Type) : Type := Controller -> outcome A * Controller.

#[global] Instance M_ret : MRet M := fun A (a : A) c => (Ok a, c).

(** Sequencing: what follows runs only after a normal return; the controller
    keeps whatever was done to it before a raise. *)
#[global] Instance M_bind : MBind M := fun A B (f : A -> M B) (m : M A) c =>
  match m c with
  | (Ok a, c') => f a c'
  | (Raise e, c') => (Raise e, c')
  | (Hang, c') => (Hang, c')
  end.

(** An expression that does not touch the controller. *)
Definition pure {A} (o : outcome A) : M A := fun c => (o, c).

(** Reading an attribute of [self]. *)
Definition get {A} (f : Controller -> A) : M A := fun c => (Ok (f c), c).

(** [self.T[i]] for one of the three tables. *)
Definition item (T : Controller -> list Z) (i : Z) : M Z :=
  l ← get T; pure (getitem l i).

Definition set_Targets (l : list Z) : M unit :=
  fun c => (Ok tt, mkController (usb c) (PololuCmd c) l (Mins c) (Maxs c)).
Definition set_Mins (l : list Z) : M unit :=
  fun c => (Ok tt, mkController (usb c) (PololuCmd c) (Targets c) l (Maxs c)).
Definition set_Maxs (l : list Z) : M unit :=
  fun c => (Ok tt, mkController (usb c) (PololuCmd c) (Targets c) (Mins c) l).

(** The C integer [chr] converts its argument to: a 32-bit [int] on
    Python 3; a [long] on Python 2, 64 bits wide on the hosts considered
    (32 bits on others, where the Python 2 limit is that of Python 3).  The
    integers below [- c_limit] or from [c_limit] on do not fit. *)
Definition c_limit (PY2 : bool) : Z :=
  if PY2 then 9223372036854775808 else 2147483648.

Section Runtime.

(** [PY2 = version_info[0] == 2]. *)
Variable PY2 : bool.

(** [chr(i)]: any code point in Python 3, one byte in Python 2.  The
    interpreter first converts the argument to a C integer and raises
    [OverflowError] when it does not fit, before it checks the range. *)
Definition chr (i : Z) : outcome str :=
  if negb (bool_decide (- c_limit PY2 <= i < c_limit PY2)) then Raise OverflowError
  else if bool_decide (0 <= i < (if PY2 then 256 else 1114112)) then Ok [i]
  else Raise ValueError.

(** [bytes(s, 'latin-1')]. *)
Definition encode_latin1 (s : str) : outcome (list Z) :=
  if forallb (fun c => bool_decide (0 <= c < 256)) s then Ok s
  else Raise UnicodeEncodeError.

(** [usb.read()]: one byte, with no timeout. *)
Definition Serial_read (p : Serial) : outcome pyobj * Serial :=
  if negb (is_open p) then (Raise PortNotOpenError, p)
  else if negb (line_ok p) then (Raise SerialException, p)
  else match rx p with
       | [] => (Hang, p)
       | b :: rest =>
           (Ok (if PY2 then PStr [b] else PBytes [b]),
            mkSerial (is_open p) (line_ok p) (tx p) rest)
       end.

(** [self.usb.write(data)] and [self.usb.read()]. *)
Definition usb_write (data : list Z) : M unit :=
  fun c => let '(o, p) := Serial_write data (usb c) in
           (o, mkController p (PololuCmd c) (Targets c) (Mins c) (Maxs c)).

Definition usb_read : M pyobj :=
  fun c => let '(o, p) := Serial_read (usb c) in
           (o, mkController p (PololuCmd c) (Targets c) (Mins c) (Maxs c)).

(** [Controller(ttyStr, device)]: [port] is the port [ttyStr] names, as
    [serial.Serial(ttyStr)] finds it. *)
Definition init (port : Serial) (device : Z) : outcome Controller :=
  if negb (line_ok port) then Raise SerialException
  else match chr 0xaa with
       | Ok a =>
           match chr device with
           | Ok d =>
               Ok (mkController (mkSerial true true (tx port) (rx port))
                     (a ++ d) (replicate 24 0) (replicate 24 0) (replicate 24 0))
           | Raise e => Raise e
           | Hang => Hang
           end
       | Raise e => Raise e
       | Hang => Hang
       end.

Definition close : M unit :=
  fun c => (Ok tt, mkController (Serial_close (usb c)) (PololuCmd c)
                     (Targets c) (Mins c) (Maxs c)).

Definition sendCmd (cmd : str) : M unit :=
  prefix ← get PololuCmd;
  let cmdStr := prefix ++ cmd in
  if PY2 then usb_write cmdStr
  else data ← pure (encode_latin1 cmdStr); usb_write data.

Definition setRange (chan mn mx : Z) : M unit :=
  mins ← get Mins;
  mins' ← pure (setitem mins chan mn);
  set_Mins mins' ;;
  maxs ← get Maxs;
  maxs' ← pure (setitem maxs chan mx);
  set_Maxs maxs'.

Definition getMin (chan : Z) : M Z := item Mins chan.

Definition getMax (chan : Z) : M Z := item Maxs chan.

(** The two data bytes of a 14-bit value, as [setTarget], [setSpeed] and
    [setAccel] compute them. *)
Definition lsb_of (value : Z) : Z := Z.land value 0x7f.
Definition msb_of (value : Z) : Z := Z.land (Z.shiftr value 7) 0x7f.

(** [chr(op) + chr(chan) + chr(lsb) + chr(msb)], left to right. *)
Definition cmd4 (op chan lsb msb : Z) : M str :=
  s0 ← pure (chr op);
  s1 ← pure (chr chan);
  s2 ← pure (chr lsb);
  s3 ← pure (chr msb);
  mret (((s0 ++ s1) ++ s2) ++ s3).

Definition setTarget (chan target : Z) : M unit :=
  (* if Min is defined and Target is below, force to Min *)
  mn ← item Mins chan;
  below ← (if bool_decide (mn > 0)
           then mn' ← item Mins chan; mret (bool_decide (target < mn'))
           else mret false);
  target ← (if below : bool then item Mins chan else mret target);
  (* if Max is defined and Target is above, force to Max *)
  mx ← item Maxs chan;
  above ← (if bool_decide (mx > 0)
           then mx' ← item Maxs chan; mret (bool_decide (target > mx'))
           else mret false);
  target ← (if above : bool then item Maxs chan else mret target);
  let lsb := lsb_of target in
  let msb := msb_of target in
  cmd ← cmd4 0x04 chan lsb msb;
  sendCmd cmd ;;
  (* Record Target value *)
  ts ← get Targets;
  ts' ← pure (setitem ts chan target);
  set_Targets ts'.

Definition setSpeed (chan speed : Z) : M unit :=
  let lsb := lsb_of speed in
  let msb := msb_of speed in
  cmd ← cmd4 0x07 chan lsb msb;
  sendCmd cmd.

Definition setAccel (chan accel : Z) : M unit :=
  let lsb := lsb_of accel in
  let msb := msb_of accel in
  cmd ← cmd4 0x09 chan lsb msb;
  sendCmd cmd.

(** [(msb << 8) + lsb], the value [getPosition] returns. *)
Definition decode (lsb msb : Z) : Z := Z.shiftl msb 8 + lsb.

Definition getPosition (chan : Z) : M Z :=
  s0 ← pure (chr 0x10);
  s1 ← pure (chr chan);
  sendCmd (s0 ++ s1) ;;
  r0 ← usb_read;
  lsb ← pure (ord r0);
  r1 ← usb_read;
  msb ← pure (ord r1);
  mret (decode lsb msb).

Definition isMoving (chan : Z) : M bool :=
  t ← item Targets chan;
  if bool_decide (t > 0) then
    pos ← getPosition chan;
    t' ← item Targets chan;
    if bool_decide (pos ≠ t') then mret true else mret false
  else mret false.

Definition getMovingState : M bool :=
  cmd ← pure (chr 0x13);
  sendCmd cmd ;;
  r ← usb_read;
  z ← pure (chr 0);
  if py_eq r (PStr z) then mret false else mret true.

Definition runScriptSub (subNumber : Z) : M unit :=
  s0 ← pure (chr 0x27);
  s1 ← pure (chr subNumber);
  sendCmd (s0 ++ s1).

Definition stopScript : M unit :=
  cmd ← pure (chr 0x24);
  sendCmd cmd.

Definition moveForwardest : M unit :=
  setRange 1 5000 7000 ;;
  setSpeed 1 1000 ;;
  setTarget 1 6900.

(** *** Gestures *)

Definition rotateHeadRight : M unit :=
  setRange 3 4000 8000 ;;
  setSpeed 3 1000 ;;
  pos ← getPosition 3;
  if bool_decide (pos < 8000)
  then pos' ← getPosition 3; setTarget 3 (pos' + 1000)
  else mret tt.

Definition rotateHeadLeft : M unit :=
  setRange 3 4000 8000 ;;
  setSpeed 3 1000 ;;
  pos ← getPosition 3;
  if bool_decide (pos > 4000)
  then pos' ← getPosition 3; setTarget 3 (pos' - 1000)
  else mret tt.

Definition tiltHeadUp : M unit :=
  setRange 4 4000 8000 ;;
  setSpeed 4 1000 ;;
  pos ← getPosition 4;
  if bool_decide (pos < 8000)
  then pos' ← getPosition 4; setTarget 4 (pos' + 1000)
  else mret tt.

Definition tiltHeadDown : M unit :=
  setRange 4 4000 8000 ;;
  setSpeed 4 1000 ;;
  pos ← getPosition 4;
  if bool_decide (pos > 4000)
  then pos' ← getPosition 4; setTarget 4 (pos' - 1000)
  else mret tt.

Definition turnRight : M unit :=
  setRange 2 5000 7000 ;; setSpeed 2 1000 ;; setTarget 2 7000.

Definition turnLeft : M unit :=
  setRange 2 5000 7000 ;; setSpeed 2 1000 ;; setTarget 2 5000.

Definition moveForward : M unit :=
  setRange 1 5000 7000 ;; setSpeed 1 1000 ;; setTarget 1 6700.

Definition moveForwarder : M unit :=
  setRange 1 5000 7000 ;; setSpeed 1 1000 ;; setTarget 1 6800.

Definition moveBackward : M unit :=
  setRange 1 5000 7000 ;; setSpeed 1 1000 ;; setTarget 1 5400.

Definition moveBackwarder : M unit :=
  setRange 1 5000 7000 ;; setSpeed 1 1000 ;; setTarget 1 5300.

Definition moveBackwardest : M unit :=
  setRange 1 5000 7000 ;; setSpeed 1 1000 ;; setTarget 1 5200.

Definition stopMotion : M unit :=
  setRange 1 5000 7000 ;; setSpeed 1 1000 ;; setTarget 1 6000.

Definition resetAll : M unit :=
  setSpeed 3 1000 ;; setTarget 3 6000 ;;
  setSpeed 4 1000 ;; setTarget 4 6000 ;;
  setSpeed 0 1000 ;; setTarget 0 6000 ;;
  setSpeed 2 1000 ;; setTarget 2 6000 ;;
  setSpeed 1 1000 ;; setTarget 1 6000.

(** *** The key loop (lines 254-318)

    One turn of [while True] for the line [x] that [input()] returned: the
    method called, then the message printed. *)
Definition loop_body (x : string) : M string :=
  if String.eqb x "q" then moveForward ;; mret "moving forward 1"%string
  else if String.eqb x "w" then moveForwarder ;; mret "moving forward 2"%string
  else if String.eqb x "e" then moveForwardest ;; mret "moving forward 3"%string
  else if String.eqb x "a" then turnLeft ;; mret "turn left"%string
  else if String.eqb x "z" then moveBackward ;; mret "moving backward 1"%string
  else if String.eqb x "x" then moveBackwarder ;; mret "moving backward 2"%string
  else if String.eqb x "c" then moveBackwardest ;; mret "moving backward 3"%string
  else if String.eqb x "d" then turnRight ;; mret "turn right"%string
  else if String.eqb x "s" then stopMotion ;; mret "stopping"%string
  else if String.eqb x "b" then
    setSpeed 0 1000 ;; setTarget 0 3000 ;; mret "twist left"%string
  else if String.eqb x "n" then
    setSpeed 0 1000 ;; setTarget 0 6000 ;; mret "twist center"%string
  else if String.eqb x "m" then
    setSpeed 0 1000 ;; setTarget 0 9000 ;; mret "twist right"%string
  else if String.eqb x "i" then tiltHeadUp ;; mret "tilting head up"%string
  else if String.eqb x "k" then tiltHeadDown ;; mret "tilting head down"%string
  else if String.eqb x "j" then rotateHeadLeft ;; mret "rotating head left"%string
  else if String.eqb x "l" then rotateHeadRight ;; mret "rotating head right"%string
  else if String.eqb x "r" then resetAll ;; mret "resetting conditions"%string
  else mret "invalid key"%string.

End Runtime.

(** How the key loop stops: a method raised, the input ran out ([input()]
    raises [EOFError]), or a read blocked for ever. *)
Inductive stop : Type :=
  | Raised (e : exn)
  | EndOfInput
  | Blocked.

(** The loop on Python 3, over the lines still to come on the standard
    input; [printed] is what has been printed so far.  On Python 3 [input()]
    returns the line as it is.  (On Python 2 [input()] evaluates the line as
    an expression, so what reaches the loop body is not the line typed: that
    loop is not modelled.) *)
Fixpoint key_loop (lines printed : list string) (c : Controller)
  : list string * stop * Controller :=
  match lines with
  | [] => (printed, EndOfInput, c)
  | x :: rest =>
      match loop_body false x c with
      | (Ok msg, c') => key_loop rest (printed ++ [msg]) c'
      | (Raise e, c') => (printed, Raised e, c')
      | (Hang, c') => (printed, Blocked, c')
      end
  end.

(** The port a fresh controller is opened on: nothing written yet, the
    device reachable and about to send [incoming]. *)
Definition fresh_port (incoming : list Z) : Serial := mkSerial false true [] incoming.

(** ** Vocabulary of the statements *)

(** Lines 84-85 and 87-88 of [setTarget] as functions of the bound read from
    the table. *)
Definition min_clamp (mn target : Z) : Z :=
  if bool_decide (mn > 0) && bool_decide (target < mn) then mn else target.
Definition max_clamp (mx target : Z) : Z :=
  if bool_decide (mx > 0) && bool_decide (target > mx) then mx else target.

(** The controller after [frame] has gone out on the port. *)
Definition sent (frame : list Z) (c : Controller) : Controller :=
  mkController
    (mkSerial (is_open (usb c)) (line_ok (usb c)) (tx (usb c) ++ frame) (rx (usb c)))
    (PololuCmd c) (Targets c) (Mins c) (Maxs c).

(** The controller after [Targets[chan] = v]. *)
Definition stored (chan v : Z) (c : Controller) : Controller :=
  mkController (usb c) (PololuCmd c) (<[Z.to_nat chan := v]> (Targets c))
    (Mins c) (Maxs c).

(** The controller after the device's next [n] bytes have been read. *)
Definition received (n : nat) (c : Controller) : Controller :=
  mkController
    (mkSerial (is_open (usb c)) (line_ok (usb c)) (tx (usb c)) (drop n (rx (usb c))))
    (PololuCmd c) (Targets c) (Mins c) (Maxs c).

(** What [init] sets up for the device number [dev] and no method undoes:
    the two lead-in bytes and three tables of 24 entries. *)
Definition framed (dev : Z) (c : Controller) : Prop :=
  PololuCmd c = [0xaa; dev] ∧ 0 <= dev < 256 ∧
  length (Targets c) = 24%nat ∧ length (Mins c) = 24%nat ∧
  length (Maxs c) = 24%nat.

(** Such a controller with its port still open and the device reachable. *)
Definition ready (dev : Z) (c : Controller) : Prop :=
  is_open (usb c) = true ∧ line_ok (usb c) = true ∧ framed dev c.

#[global] Instance framed_dec dev c : Decision (framed dev c).
Proof. unfold framed. apply _. Defined.

#[global] Instance ready_dec dev c : Decision (ready dev c).
Proof. unfold ready. apply _. Defined.

(** The port refuses every write: it is closed, or the device is gone. *)
Definition write_fails (p : Serial) : Prop :=
  is_open p = false ∨ line_ok p = false.


(** A method that leaves the target table alone, however it ends. *)
Definition keeps_Targets {A} (m : M A) : Prop :=
  ∀ c, Targets (m c).2 = Targets c.

(** A method that leaves the whole controller alone, however it ends. *)
Definition reads_only {A} (m : M A) : Prop :=
  ∀ c, (m c).2 = c.

(** A method that leaves the target table alone unless it returns. *)
Definition keeps_Targets_unless_Ok {A} (m : M A) : Prop :=
  ∀ c, match (m c).1 with Ok _ => True | _ => Targets (m c).2 = Targets c end.

(** Construct a controller on a fresh port and run [m] on it. *)
Definition on_fresh {A} (PY2 : bool) (incoming : list Z) (device : Z) (m : M A)
  : outcome (outcome A * Controller) :=
  match init PY2 (fresh_port incoming) device with
  | Ok c => Ok (m c)
  | Raise e => Raise e
  | Hang => Hang
  end.

(** What has gone out on the port by the end of a run of [on_fresh]. *)
Definition transmitted {A} (r : outcome (outcome A * Controller)) : option (list Z) :=
  match r with
  | Ok (_, c) => Some (tx (usb c))
  | _ => None
  end.

(** The controller [Controller()] builds on a fresh port (device 0x0C), and
    the same controller after [setRange(1, 5000, 7000)]. *)
Definition default_controller (incoming : list Z) : Controller :=
  mkController (mkSerial true true [] incoming) [0xaa; 0x0c]
    (replicate 24 0) (replicate 24 0) (replicate 24 0).

Definition ranged_controller (incoming : list Z) : Controller :=
  mkController (mkSerial true true [] incoming) [0xaa; 0x0c]
    (replicate 24 0) (<[1%nat := 5000]> (replicate 24 0))
    (<[1%nat := 7000]> (replicate 24 0)).

(** The bound of a channel as a table holds it. *)
Definition bound (l : list Z) (chan : Z) : Z := default 0 (l !! Z.to_nat chan).

(** The value [setTarget(chan, target)] settles on: both bounds of the
    channel applied, the minimum first. *)
Definition clamped (c : Controller) (chan target : Z) : Z :=
  max_clamp (bound (Maxs c) chan) (min_clamp (bound (Mins c) chan) target).

(** A command frame with a channel and a two-byte value. *)
Definition frame (dev op chan value : Z) : list Z :=
  [0xaa; dev; op; chan; lsb_of value; msb_of value].

(** The controller after [Mins[chan] = mn] and [Maxs[chan] = mx]. *)
Definition ranged (chan mn mx : Z) (c : Controller) : Controller :=
  mkController (usb c) (PololuCmd c) (Targets c)
    (<[Z.to_nat chan := mn]> (Mins c)) (<[Z.to_nat chan := mx]> (Maxs c)).

(** A method that keeps a property of the controller, however it ends. *)
Definition preserves {A} (P : Controller → Prop) (m : M A) : Prop :=
  ∀ c, P c → P (m c).2.

(** The keys of the loop whose method asks the device for a position. *)
Definition asks_position (x : string) : bool :=
  String.eqb x "i" || String.eqb x "k" || String.eqb x "j" || String.eqb x "l".

(** The gestures that go to a fixed target, with their channel and target;
    all of them use the range 5000..7000. *)
Definition absolute_gestures (PY2 : bool) : list (M unit * Z * Z) :=
  [ (turnRight PY2, 2, 7000); (turnLeft PY2, 2, 5000);
    (moveForward PY2, 1, 6700); (moveForwarder PY2, 1, 6800);
    (moveForwardest PY2, 1, 6900); (moveBackward PY2, 1, 5400);
    (moveBackwarder PY2, 1, 5300); (moveBackwardest PY2, 1, 5200);
    (stopMotion PY2, 1, 6000) ].

(** The gestures that step from the reported position, with their channel,
    the test on the first report and the step from the second. *)
Definition relative_gestures (PY2 : bool)
  : list (M unit * Z * (Z → bool) * (Z → Z)) :=
  [ (rotateHeadRight PY2, 3, λ pos, bool_decide (pos < 8000), λ pos, pos + 1000);
    (rotateHeadLeft PY2, 3, λ pos, bool_decide (pos > 4000), λ pos, pos - 1000);
    (tiltHeadUp PY2, 4, λ pos, bool_decide (pos < 8000), λ pos, pos + 1000);
    (tiltHeadDown PY2, 4, λ pos, bool_decide (pos > 4000), λ pos, pos - 1000) ].

(** The controller after [setSpeed(chan, 1000)] and [setTarget(chan, 6000)],
    as [resetAll] does for each of its channels. *)
Definition centred (dev chan : Z) (c : Controller) : Controller :=
  let v := clamped c chan 6000 in
  stored chan v (sent (frame dev 0x04 chan v) (sent (frame dev 0x07 chan 1000) c)).

(** A method whose run relates the controller before to the controller
    after by [R], however it ends. *)
Definition always {A} (R : relation Controller) (m : M A) : Prop :=
  ∀ c, R c (m c).2.

(** What no method but [close] changes: the lead-in bytes, the sizes of the
    three tables and the state of the port. *)
Definition layout (c : Controller) : str * (nat * nat * nat) * (bool * bool) :=
  (PololuCmd c,
   (length (Targets c), length (Mins c), length (Maxs c)),
   (is_open (usb c), line_ok (usb c))).

Definition same_layout (c c' : Controller) : Prop := layout c' = layout c.

(** ** Python primitives: basic facts *)

Lemma chr_byte PY2 i : 0 <= i < 256 → chr PY2 i = Ok [i].
Proof.
  intros Hi. unfold chr, c_limit.
  rewrite (bool_decide_eq_true_2 (_ <= i < _)) by (destruct PY2; lia).
  cbn [negb]. rewrite bool_decide_eq_true_2; [done | destruct PY2; lia].
Qed.

Lemma chr_Ok_nonneg PY2 i s : chr PY2 i = Ok s → 0 <= i ∧ s = [i].
Proof.
  unfold chr. destruct (negb _); [done | ].
  case_bool_decide as Hi; [ | done].
  intros [= <-]. split; [lia | done].
Qed.

Lemma py_index_nonneg (l : list Z) i :
  0 <= i < Z.of_nat (length l) → py_index l i = Some (Z.to_nat i).
Proof. intros Hi. unfold py_index. by rewrite bool_decide_eq_true_2. Qed.

Lemma py_index_nonneg_inv (l : list Z) i k :
  0 <= i → py_index l i = Some k → k = Z.to_nat i ∧ (k < length l)%nat.
Proof.
  intros Hi. unfold py_index.
  case_bool_decide as H1; [intros [= <-]; split; [done | lia] | ].
  case_bool_decide as H2; [lia | done].
Qed.

Lemma getitem_in_range (l : list Z) i v :
  0 <= i < Z.of_nat (length l) → l !! Z.to_nat i = Some v → getitem l i = Ok v.
Proof. intros Hi Hv. unfold getitem. by rewrite py_index_nonneg, Hv. Qed.

Lemma setitem_in_range (l : list Z) i v :
  0 <= i < Z.of_nat (length l) → setitem l i v = Ok (<[Z.to_nat i := v]> l).
Proof. intros Hi. unfold setitem. by rewrite py_index_nonneg. Qed.

Lemma lsb_of_mod v : lsb_of v = v `mod` 128.
Proof. unfold lsb_of. change 0x7f with (Z.ones 7). by rewrite Z.land_ones. Qed.

Lemma msb_of_mod v : msb_of v = (v `div` 128) `mod` 128.
Proof.
  unfold msb_of. change 0x7f with (Z.ones 7).
  by rewrite Z.land_ones, Z.shiftr_div_pow2.
Qed.

Lemma lsb_of_range v : 0 <= lsb_of v < 128.
Proof. rewrite lsb_of_mod. apply Z.mod_pos_bound. lia. Qed.

Lemma msb_of_range v : 0 <= msb_of v < 128.
Proof. rewrite msb_of_mod. apply Z.mod_pos_bound. lia. Qed.

Lemma msb_of_small v : 0 <= v <= 16383 → msb_of v = v `div` 128.
Proof.
  intros Hv. rewrite msb_of_mod. apply Z.mod_small.
  split; [apply Z.div_pos; lia | apply Z.div_lt_upper_bound; lia].
Qed.

Lemma decode_arith lsb msb : decode lsb msb = 256 * msb + lsb.
Proof. unfold decode. rewrite Z.shiftl_mul_pow2 by lia. change (2 ^ 8) with 256. lia. Qed.

(** ** Running the monad *)

Lemma bind_run {A B} (m : M A) (f : A → M B) c :
  (m ≫= f) c =
  match m c with
  | (Ok a, c') => f a c'
  | (Raise e, c') => (Raise e, c')
  | (Hang, c') => (Hang, c')
  end.
Proof. reflexivity. Qed.

Lemma bind_Ok {A B} (m : M A) (f : A → M B) c a c' :
  m c = (Ok a, c') → (m ≫= f) c = f a c'.
Proof. intros H. by rewrite bind_run, H. Qed.

Lemma bind_Ok_inv {A B} (m : M A) (f : A → M B) c b c' :
  (m ≫= f) c = (Ok b, c') → ∃ a c1, m c = (Ok a, c1) ∧ f a c1 = (Ok b, c').
Proof.
  rewrite bind_run. destruct (m c) as [[a | e | ] c1]; [eauto | done | done].
Qed.

Lemma pure_run {A} (o : outcome A) c : pure o c = (o, c).
Proof. reflexivity. Qed.

Lemma item_run T chan c v :
  0 <= chan < Z.of_nat (length (T c)) → T c !! Z.to_nat chan = Some v →
  item T chan c = (Ok v, c).
Proof.
  intros Hc Hv. unfold item. rewrite bind_run. cbn.
  by rewrite (getitem_in_range _ _ v).
Qed.

(** ** One frame per command *)

Lemma encode_latin1_bytes (s : str) :
  Forall (λ b, 0 <= b < 256) s → encode_latin1 s = Ok s.
Proof.
  intros Hs. unfold encode_latin1.
  replace (forallb _ s) with true; [done | ].
  symmetry. apply forallb_forall. intros b Hb.
  apply bool_decide_eq_true_2.
  rewrite List.Forall_forall in Hs. by apply Hs.
Qed.

(** With byte-sized arguments, [sendCmd] is one write of lead-in, device
    number and command, on either Python. *)
Lemma sendCmd_write PY2 dev c cmd :
  framed dev c → Forall (λ b, 0 <= b < 256) cmd →
  sendCmd PY2 cmd c = usb_write ([0xaa; dev] ++ cmd) c.
Proof.
  intros (Hpre & Hdev & _) Hcmd.
  assert (Hall : Forall (λ b, 0 <= b < 256) ([0xaa; dev] ++ cmd)).
  { apply Forall_app. split; [ | done]. repeat constructor; lia. }
  unfold sendCmd. rewrite bind_run. cbn. rewrite Hpre.
  destruct PY2; [done | ].
  by rewrite bind_run, pure_run, (encode_latin1_bytes _ Hall).
Qed.

Lemma sendCmd_run PY2 dev c cmd :
  ready dev c → Forall (λ b, 0 <= b < 256) cmd →
  sendCmd PY2 cmd c = (Ok tt, sent ([0xaa; dev] ++ cmd) c).
Proof.
  intros (Hopen & Hline & Hframed) Hcmd.
  rewrite (sendCmd_write _ dev) by done.
  unfold usb_write, Serial_write, sent. by rewrite Hopen, Hline.
Qed.

Lemma sendCmd_closed PY2 dev c cmd :
  framed dev c → is_open (usb c) = false → Forall (λ b, 0 <= b < 256) cmd →
  sendCmd PY2 cmd c = (Raise PortNotOpenError, c).
Proof.
  intros Hframed Hopen Hcmd.
  rewrite (sendCmd_write _ dev) by done.
  unfold usb_write, Serial_write. rewrite Hopen. cbn. by destruct c.
Qed.

Lemma cmd4_run PY2 op chan lsb msb c :
  0 <= op < 256 → 0 <= chan < 256 → 0 <= lsb < 256 → 0 <= msb < 256 →
  cmd4 PY2 op chan lsb msb c = (Ok [op; chan; lsb; msb], c).
Proof.
  intros Hop Hchan Hlsb Hmsb. unfold cmd4.
  rewrite bind_run, pure_run, chr_byte by done.
  rewrite bind_run, pure_run, chr_byte by done.
  rewrite bind_run, pure_run, chr_byte by done.
  rewrite bind_run, pure_run, chr_byte by done.
  reflexivity.
Qed.

Lemma cmd4_value_run PY2 op chan value c :
  0 <= op < 256 → 0 <= chan < 256 →
  cmd4 PY2 op chan (lsb_of value) (msb_of value) c
  = (Ok [op; chan; lsb_of value; msb_of value], c).
Proof.
  intros Hop Hchan.
  pose proof (lsb_of_range value). pose proof (msb_of_range value).
  apply cmd4_run; lia.
Qed.

Lemma frame_bytes (op chan value : Z) :
  0 <= op < 256 → 0 <= chan < 256 →
  Forall (λ b, 0 <= b < 256) [op; chan; lsb_of value; msb_of value].
Proof.
  intros Hop Hchan.
  pose proof (lsb_of_range value). pose proof (msb_of_range value).
  repeat constructor; lia.
Qed.

Lemma ready_sent dev frame c : ready dev c → ready dev (sent frame c).
Proof. unfold ready, framed. by cbn. Qed.

Lemma ready_stored dev chan v c : ready dev c → ready dev (stored chan v c).
Proof. unfold ready, framed. cbn. by rewrite length_insert. Qed.

(** ** [setTarget], [setSpeed], [setAccel] on a ready controller *)

(** [setTarget] up to its write: the clamped value is computed from the two
    bounds, its frame is written, and only then is the table assigned. *)
Lemma setTarget_write PY2 dev c chan target mn mx :
  framed dev c → 0 <= chan < 24 →
  Mins c !! Z.to_nat chan = Some mn → Maxs c !! Z.to_nat chan = Some mx →
  let v := max_clamp mx (min_clamp mn target) in
  setTarget PY2 chan target c
  = (usb_write [0xaa; dev; 0x04; chan; lsb_of v; msb_of v] ;;
     ts ← get Targets;
     ts' ← pure (setitem ts chan v);
     set_Targets ts') c.
Proof.
  intros Hframed Hchan Hmn Hmx v.
  pose proof Hframed as (_ & _ & HlenT & HlenMin & HlenMax).
  assert (Hmin : item Mins chan c = (Ok mn, c)) by (apply item_run; [lia | done]).
  assert (Hmax : item Maxs chan c = (Ok mx, c)) by (apply item_run; [lia | done]).
  unfold setTarget.
  rewrite (bind_Ok _ _ _ _ _ Hmin).
  erewrite (bind_Ok _ _ c (bool_decide (mn > 0) && bool_decide (target < mn)) c);
    last first.
  { case_bool_decide; [ | done]. by rewrite (bind_Ok _ _ _ _ _ Hmin). }
  erewrite (bind_Ok _ _ c (min_clamp mn target) c); last first.
  { unfold min_clamp. by destruct (_ && _). }
  rewrite (bind_Ok _ _ _ _ _ Hmax).
  erewrite (bind_Ok _ _ c
              (bool_decide (mx > 0) && bool_decide (min_clamp mn target > mx)) c);
    last first.
  { case_bool_decide; [ | done]. by rewrite (bind_Ok _ _ _ _ _ Hmax). }
  erewrite (bind_Ok _ _ c v c); last first.
  { unfold v, max_clamp. by destruct (_ && _). }
  cbv zeta.
  erewrite bind_Ok by (apply cmd4_value_run; lia).
  rewrite !(bind_run (sendCmd _ _)), !(bind_run (usb_write _)).
  by rewrite (sendCmd_write _ dev) by (done || apply frame_bytes; lia).
Qed.

Lemma setTarget_run PY2 dev c chan target mn mx :
  ready dev c → 0 <= chan < 24 →
  Mins c !! Z.to_nat chan = Some mn → Maxs c !! Z.to_nat chan = Some mx →
  let v := max_clamp mx (min_clamp mn target) in
  setTarget PY2 chan target c
  = (Ok tt, stored chan v (sent [0xaa; dev; 0x04; chan; lsb_of v; msb_of v] c)).
Proof.
  intros (Hopen & Hline & Hframed) Hchan Hmn Hmx v.
  pose proof Hframed as (_ & _ & HlenT & _).
  rewrite (setTarget_write _ dev _ _ _ mn mx) by done.
  rewrite bind_run. unfold usb_write at 1, Serial_write. rewrite Hopen, Hline.
  cbn. rewrite bind_run. cbn.
  rewrite bind_run, pure_run, setitem_in_range by (cbn; lia).
  unfold set_Targets, stored, sent. cbn. by rewrite Hopen, Hline.
Qed.

(** A refused write ends [setTarget] with the port's exception and the
    controller as it was. *)
Lemma setTarget_write_fails PY2 dev c chan target mn mx :
  framed dev c → 0 <= chan < 24 →
  Mins c !! Z.to_nat chan = Some mn → Maxs c !! Z.to_nat chan = Some mx →
  write_fails (usb c) →
  setTarget PY2 chan target c
  = (Raise (if is_open (usb c) then SerialException else PortNotOpenError), c).
Proof.
  intros Hframed Hchan Hmn Hmx Hfail.
  rewrite (setTarget_write _ dev _ _ _ mn mx) by done.
  rewrite bind_run. unfold usb_write, Serial_write.
  destruct c as [[o l t r] pre ts mins maxs].
  destruct Hfail as [Hf | Hf]; cbn in Hf; subst; cbn; [done | by destruct o].
Qed.

Lemma setSpeed_run PY2 dev c chan speed :
  ready dev c → 0 <= chan < 256 →
  setSpeed PY2 chan speed c
  = (Ok tt, sent [0xaa; dev; 0x07; chan; lsb_of speed; msb_of speed] c).
Proof.
  intros Hready Hchan. unfold setSpeed. cbv zeta.
  erewrite bind_Ok by (apply cmd4_value_run; lia).
  apply (sendCmd_run _ dev); [done | apply frame_bytes; lia].
Qed.

Lemma setAccel_run PY2 dev c chan accel :
  ready dev c → 0 <= chan < 256 →
  setAccel PY2 chan accel c
  = (Ok tt, sent [0xaa; dev; 0x09; chan; lsb_of accel; msb_of accel] c).
Proof.
  intros Hready Hchan. unfold setAccel. cbv zeta.
  erewrite bind_Ok by (apply cmd4_value_run; lia).
  apply (sendCmd_run _ dev); [done | apply frame_bytes; lia].
Qed.

(** ** Queries on a ready controller *)

Lemma usb_read_run PY2 c b rest :
  is_open (usb c) = true → line_ok (usb c) = true → rx (usb c) = b :: rest →
  usb_read PY2 c = (Ok (if PY2 then PStr [b] else PBytes [b]), received 1 c).
Proof.
  intros Hopen Hline Hrx. unfold usb_read, Serial_read, received.
  by rewrite Hopen, Hline, Hrx.
Qed.

Lemma ord_read (PY2 : bool) b : ord (if PY2 then PStr [b] else PBytes [b]) = Ok b.
Proof. by destruct PY2. Qed.

Lemma getPosition_run PY2 dev c chan lsb msb rest :
  ready dev c → 0 <= chan < 256 → rx (usb c) = lsb :: msb :: rest →
  getPosition PY2 chan c
  = (Ok (decode lsb msb), received 2 (sent [0xaa; dev; 0x10; chan] c)).
Proof.
  intros Hready Hchan Hrx.
  pose proof Hready as (Hopen & Hline & _).
  unfold getPosition.
  rewrite bind_run, pure_run, chr_byte by lia.
  rewrite bind_run, pure_run, chr_byte by done.
  erewrite bind_Ok; last first.
  { apply (sendCmd_run _ dev); [done | repeat constructor; lia]. }
  erewrite bind_Ok by (by apply (usb_read_run _ _ lsb (msb :: rest))).
  rewrite bind_run, pure_run, ord_read.
  erewrite bind_Ok; last first.
  { apply (usb_read_run _ _ msb rest); cbn; [done | done | by rewrite Hrx]. }
  rewrite bind_run, pure_run, ord_read.
  cbn. unfold received, sent. cbn. by rewrite Hrx.
Qed.

Lemma getMovingState_run PY2 dev c b rest :
  ready dev c → rx (usb c) = b :: rest →
  getMovingState PY2 c
  = (Ok (if PY2 then negb (bool_decide (b = 0)) else true),
     received 1 (sent [0xaa; dev; 0x13] c)).
Proof.
  intros Hready Hrx.
  pose proof Hready as (Hopen & Hline & _).
  unfold getMovingState.
  rewrite bind_run, pure_run, chr_byte by lia.
  erewrite bind_Ok; last first.
  { apply (sendCmd_run _ dev); [done | repeat constructor; lia]. }
  erewrite bind_Ok by (by apply (usb_read_run _ _ b rest)).
  rewrite bind_run, pure_run, chr_byte by lia.
  destruct PY2; cbn; [ | done].
  unfold list_Z_eqb. repeat case_bool_decide; try done; congruence.
Qed.

(** ** Construction gives a ready controller, and commands keep it ready *)

Lemma init_run PY2 port dev :
  line_ok port = true → 0 <= dev < 256 →
  init PY2 port dev
  = Ok (mkController (mkSerial true true (tx port) (rx port)) [0xaa; dev]
          (replicate 24 0) (replicate 24 0) (replicate 24 0)).
Proof.
  intros Hline Hdev. unfold init.
  by rewrite Hline, !chr_byte by lia.
Qed.

Lemma init_ready PY2 port dev c :
  0 <= dev < 256 → init PY2 port dev = Ok c → ready dev c.
Proof.
  intros Hdev. unfold init.
  destruct (line_ok port); [ | done]. rewrite !chr_byte by lia.
  cbn. intros [= <-]. unfold ready, framed. cbn. repeat split; lia.
Qed.

Lemma init_default PY2 incoming :
  init PY2 (fresh_port incoming) 0x0c = Ok (default_controller incoming).
Proof. by rewrite init_run by (done || lia). Qed.

Lemma setRange_run dev c chan mn mx :
  framed dev c → 0 <= chan < 24 →
  setRange chan mn mx c
  = (Ok tt, mkController (usb c) (PololuCmd c) (Targets c)
              (<[Z.to_nat chan := mn]> (Mins c)) (<[Z.to_nat chan := mx]> (Maxs c))).
Proof.
  intros (_ & _ & _ & HlenMin & HlenMax) Hchan.
  unfold setRange.
  rewrite bind_run. cbn. rewrite bind_run, pure_run, setitem_in_range by lia.
  rewrite bind_run. cbn. rewrite bind_run. cbn.
  rewrite bind_run, pure_run, setitem_in_range by lia.
  reflexivity.
Qed.

Lemma setRange_ready dev c chan mn mx c' :
  ready dev c → 0 <= chan < 24 → setRange chan mn mx c = (Ok tt, c') →
  ready dev c' ∧ Mins c' !! Z.to_nat chan = Some mn
  ∧ Maxs c' !! Z.to_nat chan = Some mx.
Proof.
  intros Hready Hchan. rewrite (setRange_run dev) by (done || apply Hready).
  destruct Hready as (? & ? & ? & ? & ? & ? & ?).
  intros [= <-]. cbn.
  split; [ unfold ready, framed; cbn; by rewrite !length_insert | ].
  split; apply list_lookup_insert_eq; lia.
Qed.

Lemma setRange_default incoming :
  setRange 1 5000 7000 (default_controller incoming)
  = (Ok tt, ranged_controller incoming).
Proof. reflexivity. Qed.

(** ** Which methods touch the target table *)

Section Footprint.
Context {A B : Type}.

Lemma keeps_ret (a : A) : keeps_Targets (mret a : M A).
Proof. by intros c. Qed.

Lemma keeps_pure (o : outcome A) : keeps_Targets (pure o).
Proof. by intros c. Qed.

Lemma keeps_get (f : Controller → A) : keeps_Targets (get f).
Proof. by intros c. Qed.

Lemma keeps_bind (m : M A) (f : A → M B) :
  keeps_Targets m → (∀ a, keeps_Targets (f a)) → keeps_Targets (m ≫= f).
Proof.
  intros Hm Hf c. rewrite bind_run. specialize (Hm c).
  destruct (m c) as [[a | e | ] c1]; cbn in *; [ | done | done].
  by rewrite Hf.
Qed.

Lemma keeps_if (b : bool) (m1 m2 : M A) :
  keeps_Targets m1 → keeps_Targets m2 → keeps_Targets (if b then m1 else m2).
Proof. by destruct b. Qed.

Lemma keeps_result (m : M A) c o c' :
  keeps_Targets m → m c = (o, c') → Targets c' = Targets c.
Proof. intros Hm Hc. specialize (Hm c). by rewrite Hc in Hm. Qed.

Lemma unless_keeps (m : M A) : keeps_Targets m → keeps_Targets_unless_Ok m.
Proof. intros Hm c. specialize (Hm c). by destruct (m c).1. Qed.

Lemma unless_bind (m : M A) (f : A → M B) :
  keeps_Targets m → (∀ a, keeps_Targets_unless_Ok (f a)) →
  keeps_Targets_unless_Ok (m ≫= f).
Proof.
  intros Hm Hf c. rewrite bind_run. specialize (Hm c).
  destruct (m c) as [[a | e | ] c1]; cbn in *; [ | done | done].
  specialize (Hf a c1). destruct (f a c1).1; [done | congruence | congruence].
Qed.

End Footprint.

Lemma keeps_usb_write data : keeps_Targets (usb_write data).
Proof. intros c. unfold usb_write. by destruct (Serial_write data (usb c)). Qed.

Lemma keeps_usb_read PY2 : keeps_Targets (usb_read PY2).
Proof. intros c. unfold usb_read. by destruct (Serial_read PY2 (usb c)). Qed.

Lemma keeps_set_Mins l : keeps_Targets (set_Mins l).
Proof. by intros c. Qed.

Lemma keeps_set_Maxs l : keeps_Targets (set_Maxs l).
Proof. by intros c. Qed.

Lemma keeps_close : keeps_Targets close.
Proof. by intros c. Qed.

Create HintDb keeps.
#[local] Hint Resolve keeps_ret keeps_pure keeps_get keeps_bind keeps_if
  keeps_usb_write keeps_usb_read keeps_set_Mins keeps_set_Maxs keeps_close
  : keeps.

Lemma keeps_item T chan : keeps_Targets (item T chan).
Proof. unfold item. auto with keeps. Qed.

Lemma keeps_sendCmd PY2 cmd : keeps_Targets (sendCmd PY2 cmd).
Proof. unfold sendCmd. auto 6 with keeps. Qed.

Lemma keeps_cmd4 PY2 op chan lsb msb : keeps_Targets (cmd4 PY2 op chan lsb msb).
Proof. unfold cmd4. auto 10 with keeps. Qed.

#[local] Hint Resolve keeps_item keeps_sendCmd keeps_cmd4 : keeps.

Lemma keeps_setRange chan mn mx : keeps_Targets (setRange chan mn mx).
Proof. unfold setRange. auto 12 with keeps. Qed.

Lemma keeps_getMin chan : keeps_Targets (getMin chan).
Proof. apply keeps_item. Qed.

Lemma keeps_getMax chan : keeps_Targets (getMax chan).
Proof. apply keeps_item. Qed.

Lemma keeps_setSpeed PY2 chan speed : keeps_Targets (setSpeed PY2 chan speed).
Proof. unfold setSpeed. auto with keeps. Qed.

Lemma keeps_setAccel PY2 chan accel : keeps_Targets (setAccel PY2 chan accel).
Proof. unfold setAccel. auto with keeps. Qed.

Lemma keeps_getPosition PY2 chan : keeps_Targets (getPosition PY2 chan).
Proof. unfold getPosition. auto 16 with keeps. Qed.

#[local] Hint Resolve keeps_getPosition : keeps.

Lemma keeps_isMoving PY2 chan : keeps_Targets (isMoving PY2 chan).
Proof. unfold isMoving. auto 10 with keeps. Qed.

Lemma keeps_getMovingState PY2 : keeps_Targets (getMovingState PY2).
Proof. unfold getMovingState. auto 10 with keeps. Qed.

Lemma keeps_runScriptSub PY2 n : keeps_Targets (runScriptSub PY2 n).
Proof. unfold runScriptSub. auto 10 with keeps. Qed.

Lemma keeps_stopScript PY2 : keeps_Targets (stopScript PY2).
Proof. unfold stopScript. auto 10 with keeps. Qed.

Section ReadsOnly.
Context {A B : Type}.

Lemma reads_ret (a : A) : reads_only (mret a : M A).
Proof. by intros c. Qed.

Lemma reads_pure (o : outcome A) : reads_only (pure o).
Proof. by intros c. Qed.

Lemma reads_get (f : Controller → A) : reads_only (get f).
Proof. by intros c. Qed.

Lemma reads_bind (m : M A) (f : A → M B) :
  reads_only m → (∀ a, reads_only (f a)) → reads_only (m ≫= f).
Proof.
  intros Hm Hf c. rewrite bind_run. specialize (Hm c).
  destruct (m c) as [[a | e | ] c1]; cbn in *; [ | done | done].
  subst c1. apply Hf.
Qed.

Lemma reads_if (b : bool) (m1 m2 : M A) :
  reads_only m1 → reads_only m2 → reads_only (if b then m1 else m2).
Proof. by destruct b. Qed.

Lemma reads_result (m : M A) c o c' : reads_only m → m c = (o, c') → c' = c.
Proof. intros Hm Hc. specialize (Hm c). by rewrite Hc in Hm. Qed.

End ReadsOnly.

Create HintDb reads.
#[local] Hint Resolve reads_ret reads_pure reads_get reads_bind reads_if : reads.

Lemma reads_item T chan : reads_only (item T chan).
Proof. unfold item. auto with reads. Qed.

Lemma reads_cmd4 PY2 op chan lsb msb : reads_only (cmd4 PY2 op chan lsb msb).
Proof. unfold cmd4. auto 10 with reads. Qed.

#[local] Hint Resolve reads_item reads_cmd4 : reads.

Lemma sendCmd_Ok_written PY2 cmd c c' :
  sendCmd PY2 cmd c = (Ok tt, c') → ¬ write_fails (usb c).
Proof.
  unfold sendCmd. rewrite bind_run. cbn.
  assert (Hw : ∀ data, usb_write data c = (Ok tt, c') → ¬ write_fails (usb c)).
  { unfold usb_write, Serial_write, write_fails. intros data.
    destruct (is_open (usb c)), (line_ok (usb c)); cbn; intros H [? | ?]; done. }
  destruct PY2; [apply Hw | ].
  rewrite bind_run, pure_run. destruct (encode_latin1 _); [apply Hw | done | done].
Qed.

(** [setTarget] returns only if the port took the frame. *)
Lemma setTarget_Ok_written PY2 chan target c c' :
  setTarget PY2 chan target c = (Ok tt, c') → ¬ write_fails (usb c).
Proof.
  unfold setTarget. intros H.
  do 7 (let c1 := fresh "c" in let H1 := fresh "H" in
        apply bind_Ok_inv in H as (? & c1 & H1 & H);
        apply reads_result in H1; [subst c1 | auto 8 with reads]).
  apply bind_Ok_inv in H as ([] & c1 & Hsend & _).
  by apply sendCmd_Ok_written in Hsend.
Qed.

(** [setTarget] assigns the table in its last statement only. *)
Lemma setTarget_unless_Ok PY2 chan target :
  keeps_Targets_unless_Ok (setTarget PY2 chan target).
Proof.
  unfold setTarget.
  repeat (apply unless_bind; [auto 8 with keeps | intros ?]).
  intros c. by cbn.
Qed.

(** When [setTarget] returns, the table differs at most in the entry that
    [Targets[chan]] names. *)
Lemma setTarget_Ok_entry PY2 chan target c c' :
  setTarget PY2 chan target c = (Ok tt, c') →
  ∃ k v, py_index (Targets c) chan = Some k ∧ Targets c' = <[k := v]> (Targets c).
Proof.
  unfold setTarget. intros H.
  repeat match type of H with
  | (?m ≫= _) ?c0 = (Ok _, _) =>
      lazymatch m with
      | get Targets => fail
      | _ => idtac
      end;
      let a := fresh "a" in let c1 := fresh "c" in let H1 := fresh "H" in
      apply bind_Ok_inv in H as (a & c1 & H1 & H);
      apply keeps_result in H1; [ | auto 8 with keeps];
      try rewrite <- H1; clear H1
  end.
  rewrite bind_run in H. cbn in H. rewrite bind_run, pure_run in H.
  unfold setitem in H.
  destruct (py_index _ chan) as [k | ] eqn:Hk; [ | done].
  cbn in H. injection H as <-. cbn. eauto.
Qed.

(** [setTarget] cannot return for a negative channel: [chr(chan)] raises. *)
Lemma setTarget_Ok_nonneg PY2 chan target c c' :
  setTarget PY2 chan target c = (Ok tt, c') → 0 <= chan.
Proof.
  unfold setTarget. intros H.
  do 6 (apply bind_Ok_inv in H as (? & ? & _ & H)).
  apply bind_Ok_inv in H as (cmd & c1 & Hcmd & _).
  unfold cmd4 in Hcmd.
  apply bind_Ok_inv in Hcmd as (? & ? & _ & Hcmd).
  apply bind_Ok_inv in Hcmd as (s1 & ? & Hchr & _).
  rewrite pure_run in Hchr. injection Hchr as Hchr _.
  by apply chr_Ok_nonneg in Hchr as [? _].
Qed.

Lemma decode_lor lsb msb :
  0 <= lsb < 256 → 0 <= msb → decode lsb msb = Z.lor (Z.shiftl msb 8) lsb.
Proof.
  intros Hlsb Hmsb. unfold decode. apply Z.add_nocarry_lor.
  apply Z.bits_inj'. intros n Hn. rewrite Z.land_spec, Z.bits_0.
  destruct (Z.lt_ge_cases n 8) as [Hlt | Hge].
  - by rewrite Z.shiftl_spec_low.
  - rewrite (Z.bits_above_log2 lsb n); [apply andb_false_r | lia | ].
    destruct (Z.eq_dec lsb 0) as [-> | Hnz]; [cbn; lia | ].
    apply Z.log2_lt_pow2; [lia | ].
    apply Z.lt_le_trans with (2 ^ 8); [cbn; lia | ].
    apply Z.pow_le_mono_r; lia.
Qed.

(** * The claims *)

(** C1: [setTarget] applies the two bounds one after the other, the minimum
    first (a target below a set minimum becomes the minimum) and the maximum
    second (a value above a set maximum becomes the maximum); the value so
    obtained is what goes out in the frame and what is stored in
    [Targets[chan]].  Hence with both bounds set and min > max the value is
    max, and [setTarget(1, 8000)] after [setRange(1, 5000, 7000)] on a new
    controller stores 7000 and sends the frame of 7000. *)
Theorem C1_setTarget_min_clamp_then_max_clamp
    PY2 dev c chan target mn mx incoming :
  ready dev c → 0 <= chan < 24 →
  Mins c !! Z.to_nat chan = Some mn → Maxs c !! Z.to_nat chan = Some mx →
  let v := max_clamp mx (min_clamp mn target) in
  let c' := stored chan v (sent [0xaa; dev; 0x04; chan; lsb_of v; msb_of v] c) in
  setTarget PY2 chan target c = (Ok tt, c')
  ∧ Targets c' !! Z.to_nat chan = Some v
  ∧ (0 < mx < mn → v = mx)
  ∧ on_fresh PY2 incoming 0x0c (setRange 1 5000 7000 ;; setTarget PY2 1 8000)
    = Ok (Ok tt,
          stored 1 7000
            (sent [0xaa; 0x0c; 0x04; 0x01; 0x58; 0x36] (ranged_controller incoming))).
Proof.
  intros Hready Hchan Hmn Hmx v c'.
  pose proof Hready as (_ & _ & _ & _ & HlenT & _).
  split; [by apply setTarget_run | ].
  split; [cbn; apply list_lookup_insert_eq; lia | ].
  split.
  - intros Hlt. unfold v, max_clamp, min_clamp.
    rewrite (bool_decide_eq_true_2 (mx > 0)), (bool_decide_eq_true_2 (mn > 0))
      by lia.
    cbn [andb]. destruct (bool_decide (target < mn)) eqn:Hbelow.
    + by rewrite bool_decide_eq_true_2 by lia.
    + apply bool_decide_eq_false_1 in Hbelow.
      by rewrite bool_decide_eq_true_2 by lia.
  - unfold on_fresh, fresh_port. rewrite init_run by (cbn; done || lia).
    f_equal. erewrite bind_Ok; last first.
    { apply (setRange_run 0x0c); [ | lia]. unfold framed; cbn. repeat split; lia. }
    erewrite (setTarget_run _ 0x0c _ 1 8000 5000 7000);
      [ reflexivity | unfold ready, framed; cbn; repeat split; lia | lia | done | done ].
Qed.

Lemma C1_witness :
  ready 0x0c (ranged_controller [])
  ∧ setTarget false 1 8000 (ranged_controller [])
    = (Ok tt,
       stored 1 7000
         (sent [0xaa; 0x0c; 0x04; 0x01; 0x58; 0x36] (ranged_controller []))).
Proof.
  assert (Hready : ready 0x0c (ranged_controller [])).
  { unfold ready, framed; cbn. repeat split; lia. }
  split; [exact Hready | ].
  refine (proj1 (C1_setTarget_min_clamp_then_max_clamp
                   false 0x0c (ranged_controller []) 1 8000 5000 7000 []
                   Hready _ _ _)); [lia | reflexivity | reflexivity].
Defined.

(** C2: with both bounds of the channel at 0 and a target within 0..16383,
    [setTarget] appends exactly the six bytes
    [0xAA, device, 0x04, chan, target & 0x7F, (target >> 7) & 0x7F] to what
    the port has written and stores the target itself in [Targets[chan]];
    the two data bytes are the 14-bit encoding of the target. *)
Theorem C2_setTarget_unclamped_frame PY2 dev c chan target :
  ready dev c → 0 <= chan < 24 → 0 <= target <= 16383 →
  Mins c !! Z.to_nat chan = Some 0 → Maxs c !! Z.to_nat chan = Some 0 →
  let frame := [0xaa; dev; 0x04; chan;
                Z.land target 0x7f; Z.land (Z.shiftr target 7) 0x7f] in
  let c' := stored chan target (sent frame c) in
  setTarget PY2 chan target c = (Ok tt, c')
  ∧ tx (usb c') = tx (usb c) ++ frame
  ∧ Targets c' !! Z.to_nat chan = Some target
  ∧ Z.land target 0x7f + 128 * Z.land (Z.shiftr target 7) 0x7f = target.
Proof.
  intros Hready Hchan Htarget Hmn Hmx frame c'.
  pose proof Hready as (_ & _ & _ & _ & HlenT & _).
  split.
  { rewrite (setTarget_run _ dev _ _ _ 0 0) by done. reflexivity. }
  split; [reflexivity | ].
  split; [cbn; apply list_lookup_insert_eq; lia | ].
  fold (lsb_of target) (msb_of target).
  rewrite lsb_of_mod, msb_of_small by done.
  pose proof (Z.div_mod target 128). lia.
Qed.

Lemma C2_witness :
  ready 0x0c (default_controller [])
  ∧ setTarget false 3 6000 (default_controller [])
    = (Ok tt,
       stored 3 6000
         (sent [0xaa; 0x0c; 0x04; 0x03; 0x70; 0x2e] (default_controller []))).
Proof.
  assert (Hready : ready 0x0c (default_controller [])).
  { unfold ready, framed; cbn. repeat split; lia. }
  split; [exact Hready | ].
  refine (proj1 (C2_setTarget_unclamped_frame
                   false 0x0c (default_controller []) 3 6000
                   Hready _ _ _ _)); [lia | lia | reflexivity | reflexivity].
Defined.

(** C3 as stated fails: 128 is split into lsb 0 and msb 1, and
    [(1 << 8) | 0] is 256. *)
Lemma C3_counterexample :
  0 <= 128 <= 16383
  ∧ Z.lor (Z.shiftl (msb_of 128) 8) (lsb_of 128) = 256
  ∧ decode (lsb_of 128) (msb_of 128) = 256
  ∧ decode (lsb_of 128) (msb_of 128) ≠ 128.
Proof. repeat split; try lia; done. Qed.

(** C3, amended: for v within 0..16383, splitting v as [setTarget] does and
    recombining as [getPosition] does gives v + 128 * (v >> 7); that is v
    again exactly when v <= 127.  (Recombining with a shift by 7 gives v.) *)
Theorem C3_encode_then_decode v :
  0 <= v <= 16383 →
  decode (lsb_of v) (msb_of v) = Z.lor (Z.shiftl (msb_of v) 8) (lsb_of v)
  ∧ decode (lsb_of v) (msb_of v) = v + 128 * Z.shiftr v 7
  ∧ (decode (lsb_of v) (msb_of v) = v ↔ v <= 127)
  ∧ Z.shiftl (msb_of v) 7 + lsb_of v = v.
Proof.
  intros Hv.
  pose proof (lsb_of_range v) as Hl. pose proof (msb_of_range v) as Hm.
  assert (Hdiv : 0 <= v `div` 128) by (apply Z.div_pos; lia).
  pose proof (Z.div_mod v 128) as Hdm.
  split; [apply decode_lor; lia | ].
  rewrite decode_arith, Z.shiftl_mul_pow2, Z.shiftr_div_pow2 by lia.
  change (2 ^ 7) with 128.
  rewrite lsb_of_mod, msb_of_small by done.
  split; [lia | ]. split; [ | lia].
  split.
  - intros Heq. assert (v `div` 128 = 0) as Hz by lia.
    apply Z.div_small_iff in Hz; lia.
  - intros Hsmall. assert (v `div` 128 = 0) as Hz by (apply Z.div_small; lia).
    lia.
Qed.

Lemma C3_witness :
  0 <= 100 <= 16383 ∧ decode (lsb_of 100) (msb_of 100) = 100.
Proof.
  split; [lia | ].
  apply (proj1 (proj2 (proj2 (C3_encode_then_decode 100 ltac:(lia))))). lia.
Defined.

(** C4: the target table is assigned by [setTarget] alone, as its last
    statement.  [getPosition] leaves every entry as it was, whatever it
    returns or raises; a [setTarget] that does not return leaves the table as
    it was, and it does not return when the port refuses the write; a
    [setTarget] that returns has changed the entry of its own channel and no
    other.  No other method assigns the table. *)
Theorem C4_Targets_assigned_only_after_send PY2 c chan target :
  Targets (getPosition PY2 chan c).2 = Targets c
  ∧ ((setTarget PY2 chan target c).1 ≠ Ok tt →
     Targets (setTarget PY2 chan target c).2 = Targets c)
  ∧ (write_fails (usb c) → (setTarget PY2 chan target c).1 ≠ Ok tt)
  ∧ ((setTarget PY2 chan target c).1 = Ok tt →
     0 <= chan ∧
     ∃ v, Targets (setTarget PY2 chan target c).2
          = <[Z.to_nat chan := v]> (Targets c))
  ∧ (∀ mn mx, keeps_Targets (setRange chan mn mx))
  ∧ keeps_Targets (getMin chan) ∧ keeps_Targets (getMax chan)
  ∧ (∀ speed, keeps_Targets (setSpeed PY2 chan speed))
  ∧ (∀ accel, keeps_Targets (setAccel PY2 chan accel))
  ∧ keeps_Targets (isMoving PY2 chan)
  ∧ keeps_Targets (getMovingState PY2)
  ∧ (∀ n, keeps_Targets (runScriptSub PY2 n))
  ∧ keeps_Targets (stopScript PY2)
  ∧ keeps_Targets close.
Proof.
  split; [apply keeps_getPosition | ].
  split.
  { intros Hfail. pose proof (setTarget_unless_Ok PY2 chan target c) as H.
    destruct (setTarget PY2 chan target c) as [[[] | e | ] c']; cbn in *; done. }
  split.
  { intros Hfail Hok.
    destruct (setTarget PY2 chan target c) as [o c'] eqn:Hrun. cbn in Hok. subst o.
    by apply setTarget_Ok_written in Hrun. }
  split.
  { intros Hok.
    destruct (setTarget PY2 chan target c) as [o c'] eqn:Hrun. cbn in Hok. subst o.
    pose proof (setTarget_Ok_nonneg _ _ _ _ _ Hrun) as Hnn.
    split; [done | ].
    destruct (setTarget_Ok_entry _ _ _ _ _ Hrun) as (k & v & Hk & Hv).
    apply py_index_nonneg_inv in Hk as [-> _]; [ | done].
    by exists v. }
  split; [intros; apply keeps_setRange | ].
  split; [apply keeps_getMin | ].
  split; [apply keeps_getMax | ].
  split; [intros; apply keeps_setSpeed | ].
  split; [intros; apply keeps_setAccel | ].
  split; [apply keeps_isMoving | ].
  split; [apply keeps_getMovingState | ].
  split; [intros; apply keeps_runScriptSub | ].
  split; [apply keeps_stopScript | apply keeps_close].
Qed.

Lemma C4_witness :
  write_fails (usb (close (default_controller [])).2)
  ∧ setTarget false 1 6000 (close (default_controller [])).2
    = (Raise PortNotOpenError, (close (default_controller [])).2)
  ∧ Targets (setTarget false 1 6000 (close (default_controller [])).2).2
    = Targets (close (default_controller [])).2.
Proof.
  split; [by left | ]. split; [reflexivity | ].
  apply (proj1 (proj2 (C4_Targets_assigned_only_after_send
                         false (close (default_controller [])).2 1 6000))).
  apply (proj1 (proj2 (proj2 (C4_Targets_assigned_only_after_send
                                false (close (default_controller [])).2 1 6000)))).
  by left.
Defined.

(** C5: [isMoving(chan)] is False when [Targets[chan]] is 0, without a word
    to the device and so whatever position it would report; when
    [Targets[chan]] is above 0 it asks for the position and is True exactly
    when the position differs from [Targets[chan]]. *)
Theorem C5_isMoving PY2 c chan t :
  0 <= chan < Z.of_nat (length (Targets c)) →
  Targets c !! Z.to_nat chan = Some t →
  (t = 0 → isMoving PY2 chan c = (Ok false, c))
  ∧ (t > 0 →
     isMoving PY2 chan c
     = (pos ← getPosition PY2 chan; mret (bool_decide (pos ≠ t))) c)
  ∧ (t > 0 → ∀ pos c', getPosition PY2 chan c = (Ok pos, c') →
     isMoving PY2 chan c = (Ok (bool_decide (pos ≠ t)), c')).
Proof.
  intros Hchan Ht.
  assert (Hitem : item Targets chan c = (Ok t, c)) by by apply item_run.
  assert (Hpos : t > 0 →
     isMoving PY2 chan c
     = (pos ← getPosition PY2 chan; mret (bool_decide (pos ≠ t))) c).
  { intros Hgt. unfold isMoving.
    rewrite (bind_Ok _ _ _ _ _ Hitem), bool_decide_eq_true_2 by done.
    rewrite !bind_run.
    destruct (getPosition PY2 chan c) as [[pos | e | ] c1] eqn:Hget; [ | done | done].
    apply keeps_result in Hget as HT; [ | apply keeps_getPosition].
    erewrite bind_Ok by (apply (item_run Targets chan c1 t); by rewrite HT).
    by case_bool_decide. }
  split.
  { intros ->. unfold isMoving. by rewrite (bind_Ok _ _ _ _ _ Hitem). }
  split; [done | ].
  intros Hgt pos c' Hget. rewrite Hpos by done. by rewrite bind_run, Hget.
Qed.

Lemma C5_witness :
  (0 <= 1 < Z.of_nat (length (Targets (default_controller [0x70; 0x2e]))))
  ∧ isMoving false 1 (default_controller [0x70; 0x2e])
    = (Ok false, default_controller [0x70; 0x2e]).
Proof.
  split; [cbn; lia | ].
  apply (proj1 (C5_isMoving false (default_controller [0x70; 0x2e]) 1 0
                  ltac:(cbn; lia) eq_refl)).
  reflexivity.
Defined.

(** On Python 2 the response byte decides: 0 gives False, anything else
    True. *)
Lemma getMovingState_python2 dev c b rest :
  ready dev c → rx (usb c) = b :: rest →
  getMovingState true c
  = (Ok (negb (bool_decide (b = 0))), received 1 (sent [0xaa; dev; 0x13] c)).
Proof. intros Hready Hrx. by rewrite (getMovingState_run _ dev _ b rest). Qed.

(** C6, on Python 3: [getMovingState] sends [0xAA, device, 0x13], reads one
    byte and returns True whatever the byte is, 0 included: the byte read is
    a [bytes] object, and it never equals the [str] [chr(0)]. *)
Theorem C6_getMovingState_python3_always_True dev c b rest :
  ready dev c → rx (usb c) = b :: rest →
  getMovingState false c
  = (Ok true, received 1 (sent [0xaa; dev; 0x13] c)).
Proof. intros Hready Hrx. by rewrite (getMovingState_run _ dev _ b rest). Qed.

Lemma C6_witness :
  ready 0x0c (default_controller [0])
  ∧ getMovingState false (default_controller [0])
    = (Ok true, received 1 (sent [0xaa; 0x0c; 0x13] (default_controller [0]))).
Proof.
  assert (Hready : ready 0x0c (default_controller [0])).
  { unfold ready, framed; cbn. repeat split; lia. }
  split; [exact Hready | ].
  exact (C6_getMovingState_python3_always_True
           0x0c (default_controller [0]) 0 [] Hready eq_refl).
Defined.

(** C7 as stated fails: the frame of [setTarget(1, 6900)] has 0x74 as its
    fifth byte (6900 & 0x7F = 116), not 0x4C. *)
Lemma C7_counterexample :
  transmitted (on_fresh false [] 0x0c
                 (setRange 1 5000 7000 ;; setTarget false 1 6900))
  = Some [0xaa; 0x0c; 0x04; 0x01; 0x74; 0x35]
  ∧ transmitted (on_fresh false [] 0x0c
                   (setRange 1 5000 7000 ;; setTarget false 1 6900))
    ≠ Some [0xaa; 0x0c; 0x04; 0x01; 0x4c; 0x35].
Proof. split; [reflexivity | discriminate]. Qed.

(** C7, amended: on a controller built with the default device number 0x0C,
    [setRange(1, 5000, 7000)] followed by [setTarget(1, 6900)] transmits
    exactly the bytes [0xAA, 0x0C, 0x04, 0x01, 0x74, 0x35] (and stores 6900
    in [Targets[1]]). *)
Theorem C7_frame_of_6900 PY2 incoming :
  on_fresh PY2 incoming 0x0c (setRange 1 5000 7000 ;; setTarget PY2 1 6900)
  = Ok (Ok tt,
        stored 1 6900
          (sent [0xaa; 0x0c; 0x04; 0x01; 0x74; 0x35] (ranged_controller incoming)))
  ∧ transmitted
      (on_fresh PY2 incoming 0x0c (setRange 1 5000 7000 ;; setTarget PY2 1 6900))
    = Some [0xaa; 0x0c; 0x04; 0x01; 0x74; 0x35].
Proof.
  assert (Hrun :
    on_fresh PY2 incoming 0x0c (setRange 1 5000 7000 ;; setTarget PY2 1 6900)
    = Ok (Ok tt,
          stored 1 6900
            (sent [0xaa; 0x0c; 0x04; 0x01; 0x74; 0x35] (ranged_controller incoming)))).
  { unfold on_fresh, fresh_port. rewrite init_run by (cbn; done || lia).
    f_equal. erewrite bind_Ok; last first.
    { apply (setRange_run 0x0c); [ | lia]. unfold framed; cbn. repeat split; lia. }
    erewrite (setTarget_run _ 0x0c _ 1 6900 5000 7000);
      [ reflexivity | unfold ready, framed; cbn; repeat split; lia
      | lia | done | done ]. }
  split; [exact Hrun | by rewrite Hrun].
Qed.

(** The gesture itself sends the speed frame first, then the same target
    frame. *)
Lemma moveForwardest_frames PY2 incoming :
  transmitted (on_fresh PY2 incoming 0x0c (moveForwardest PY2))
  = Some [0xaa; 0x0c; 0x07; 0x01; 0x68; 0x07; 0xaa; 0x0c; 0x04; 0x01; 0x74; 0x35].
Proof. by destruct PY2. Qed.

(** ** After [close] *)

Lemma close_run dev c :
  framed dev c →
  close c = (Ok tt, (close c).2) ∧ framed dev (close c).2
  ∧ is_open (usb (close c).2) = false ∧ tx (usb (close c).2) = tx (usb c).
Proof. by intros Hframed. Qed.

(** C8 as stated fails: after [close()], [setRange] still returns normally
    and records the bounds, and [isMoving] on a channel never commanded
    still answers False. *)
Lemma C8_counterexample :
  (close ;; setRange 1 5000 7000) (default_controller [])
  = (Ok tt,
     mkController (mkSerial false true [] []) [0xaa; 0x0c]
       (replicate 24 0) (<[1%nat := 5000]> (replicate 24 0))
       (<[1%nat := 7000]> (replicate 24 0)))
  ∧ (close ;; isMoving false 1) (default_controller [])
    = (Ok false, (close (default_controller [])).2).
Proof. split; reflexivity. Qed.

Lemma setSpeed_closed PY2 dev c chan speed :
  framed dev c → is_open (usb c) = false → 0 <= chan < 256 →
  setSpeed PY2 chan speed c = (Raise PortNotOpenError, c).
Proof.
  intros Hframed Hopen Hchan. unfold setSpeed. cbv zeta.
  erewrite bind_Ok by (apply cmd4_value_run; lia).
  apply (sendCmd_closed _ dev); [done | done | apply frame_bytes; lia].
Qed.

(** A gesture on a closed port: the range is recorded, then the speed command
    fails and what was to follow is not run. *)
Lemma gesture_closed PY2 dev c chan lo hi (rest : M unit) :
  framed dev c → is_open (usb c) = false → 0 <= chan < 24 →
  (setRange chan lo hi ;; setSpeed PY2 chan 1000 ;; rest) c
  = (Raise PortNotOpenError, ranged chan lo hi c).
Proof.
  intros Hframed Hopen Hchan.
  erewrite bind_Ok by (by apply (setRange_run dev)).
  fold (ranged chan lo hi c).
  rewrite bind_run, (setSpeed_closed _ dev); [done | | done | lia].
  destruct Hframed as (? & ? & ? & ? & ?).
  unfold framed. cbn. by rewrite !length_insert.
Qed.

(** C8, amended: after [close()] no method writes a byte, and the methods
    fall in two groups (channels 0..23, subroutine numbers 0..255).  Those
    that reach the port raise the port's own [PortNotOpenError] (the
    controller has no error of its own for this): [setTarget], [setSpeed],
    [setAccel], [getPosition], [getMovingState], [runScriptSub],
    [stopScript] and [resetAll] leave the controller as it was, and so does
    [isMoving] on a channel whose stored target is above 0; each of the
    thirteen gestures raises after it has recorded its range (5000..7000 or
    4000..8000) in the tables of bounds.  Those that do not reach the port
    still return normally: [setRange], [getMin], [getMax], [close] itself,
    and [isMoving] on a channel whose stored target is not above 0 (it
    returns False). *)
Theorem C8_after_close PY2 dev c chan value mn mx sub :
  ready dev c → 0 <= chan < 24 → 0 <= sub < 256 →
  let c' := (close c).2 in
  close c = (Ok tt, c')
  ∧ tx (usb c') = tx (usb c)
  ∧ setTarget PY2 chan value c' = (Raise PortNotOpenError, c')
  ∧ setSpeed PY2 chan value c' = (Raise PortNotOpenError, c')
  ∧ setAccel PY2 chan value c' = (Raise PortNotOpenError, c')
  ∧ getPosition PY2 chan c' = (Raise PortNotOpenError, c')
  ∧ getMovingState PY2 c' = (Raise PortNotOpenError, c')
  ∧ runScriptSub PY2 sub c' = (Raise PortNotOpenError, c')
  ∧ stopScript PY2 c' = (Raise PortNotOpenError, c')
  ∧ setRange chan mn mx c'
    = (Ok tt, mkController (usb c') (PololuCmd c') (Targets c')
                (<[Z.to_nat chan := mn]> (Mins c'))
                (<[Z.to_nat chan := mx]> (Maxs c')))
  ∧ (∃ v, getMin chan c' = (Ok v, c') ∧ Mins c !! Z.to_nat chan = Some v)
  ∧ (∃ v, getMax chan c' = (Ok v, c') ∧ Maxs c !! Z.to_nat chan = Some v)
  ∧ close c' = (Ok tt, c')
  ∧ isMoving PY2 chan c'
    = (if bool_decide (bound (Targets c) chan > 0)
       then (Raise PortNotOpenError, c')
       else (Ok false, c'))
  ∧ resetAll PY2 c' = (Raise PortNotOpenError, c')
  ∧ Forall (λ '(gesture, channel, _),
              gesture c' = (Raise PortNotOpenError, ranged channel 5000 7000 c')
              ∧ tx (usb (ranged channel 5000 7000 c')) = tx (usb c))
           (absolute_gestures PY2)
  ∧ Forall (λ '(gesture, channel, _, _),
              gesture c' = (Raise PortNotOpenError, ranged channel 4000 8000 c')
              ∧ tx (usb (ranged channel 4000 8000 c')) = tx (usb c))
           (relative_gestures PY2).
Proof.
  intros (Hopen & Hline & Hframed) Hchan Hsub c'.
  destruct (close_run dev c Hframed) as (Hclose & Hframed' & Hopen' & Htx).
  fold c' in Hclose, Hframed', Hopen', Htx.
  pose proof Hframed' as (_ & _ & HlenT & HlenMin & HlenMax).
  assert (Hsend : ∀ cmd, Forall (λ b, 0 <= b < 256) cmd →
                  sendCmd PY2 cmd c' = (Raise PortNotOpenError, c')).
  { intros cmd Hcmd. by apply (sendCmd_closed _ dev). }
  assert (Hpos : getPosition PY2 chan c' = (Raise PortNotOpenError, c')).
  { unfold getPosition.
    rewrite bind_run, pure_run, chr_byte by lia.
    rewrite bind_run, pure_run, chr_byte by lia.
    rewrite bind_run, Hsend; [done | repeat constructor; lia]. }
  split; [done | ]. split; [done | ].
  split.
  { destruct (lookup_lt_is_Some_2 (Mins c') (Z.to_nat chan)) as [m1 Hm1]; [lia | ].
    destruct (lookup_lt_is_Some_2 (Maxs c') (Z.to_nat chan)) as [m2 Hm2]; [lia | ].
    rewrite (setTarget_write_fails _ dev _ _ _ m1 m2) by (done || by left).
    by rewrite Hopen'. }
  split; [apply (setSpeed_closed _ dev); [done | done | lia] | ].
  split.
  { unfold setAccel. cbv zeta.
    erewrite bind_Ok by (apply cmd4_value_run; lia).
    apply Hsend, frame_bytes; lia. }
  split; [exact Hpos | ].
  split.
  { unfold getMovingState.
    rewrite bind_run, pure_run, chr_byte by lia.
    rewrite bind_run, Hsend; [done | repeat constructor; lia]. }
  split.
  { unfold runScriptSub.
    rewrite bind_run, pure_run, chr_byte by lia.
    rewrite bind_run, pure_run, chr_byte by lia.
    apply Hsend. repeat constructor; lia. }
  split.
  { unfold stopScript.
    rewrite bind_run, pure_run, chr_byte by lia.
    apply Hsend. repeat constructor; lia. }
  split; [by apply (setRange_run dev) | ].
  split.
  { destruct (lookup_lt_is_Some_2 (Mins c') (Z.to_nat chan)) as [v Hv]; [lia | ].
    exists v. split; [ | done]. apply item_run; [lia | done]. }
  split.
  { destruct (lookup_lt_is_Some_2 (Maxs c') (Z.to_nat chan)) as [v Hv]; [lia | ].
    exists v. split; [ | done]. apply item_run; [lia | done]. }
  split; [reflexivity | ].
  split.
  { destruct (lookup_lt_is_Some_2 (Targets c') (Z.to_nat chan)) as [t Ht]; [lia | ].
    assert (Hitem : item Targets chan c' = (Ok t, c')) by (apply item_run; [lia | done]).
    assert (Hbound : bound (Targets c) chan = t).
    { unfold bound. change (Targets c) with (Targets c'). by rewrite Ht. }
    rewrite Hbound. unfold isMoving. rewrite (bind_Ok _ _ _ _ _ Hitem).
    case_bool_decide; [ | done]. by rewrite bind_run, Hpos. }
  split.
  { unfold resetAll.
    rewrite bind_run, (setSpeed_closed _ dev); [done | done | done | lia]. }
  split.
  - unfold absolute_gestures.
    repeat apply Forall_cons_2; [ .. | apply Forall_nil_2].
    all: lazy beta iota; split; [ | exact Htx].
    all: match goal with
         | |- _ = (_, ranged ?channel ?lo ?hi _) =>
             apply (gesture_closed PY2 dev c' channel lo hi); [done | done | lia]
         end.
  - unfold relative_gestures.
    repeat apply Forall_cons_2; [ .. | apply Forall_nil_2].
    all: lazy beta iota; split; [ | exact Htx].
    all: match goal with
         | |- _ = (_, ranged ?channel ?lo ?hi _) =>
             apply (gesture_closed PY2 dev c' channel lo hi); [done | done | lia]
         end.
Qed.

Lemma C8_witness :
  ready 0x0c (default_controller [])
  ∧ setTarget false 1 6000 (close (default_controller [])).2
    = (Raise PortNotOpenError, (close (default_controller [])).2)
  ∧ tx (usb (close (default_controller [])).2) = [].
Proof.
  assert (Hready : ready 0x0c (default_controller [])).
  { unfold ready, framed; cbn. repeat split; lia. }
  pose proof (C8_after_close false 0x0c (default_controller []) 1 6000 0 0 0
                Hready ltac:(lia) ltac:(lia)) as (_ & Htx & Hset & _).
  split; [exact Hready | ]. split; [exact Hset | exact Htx].
Defined.

(** C9 as stated fails: [setAccel(1, 200)] sends 1 as its last byte. *)
Lemma C9_counterexample :
  0 <= 200 <= 255
  ∧ setAccel false 1 200 (default_controller [])
    = (Ok tt, sent [0xaa; 0x0c; 0x09; 0x01; 0x48; 0x01] (default_controller []))
  ∧ list.last (tx (usb (setAccel false 1 200 (default_controller [])).2)) = Some 1.
Proof. split; [lia | split; reflexivity]. Qed.

(** C9, amended: for accel within 0..255, [setAccel] sends
    [0xAA, device, 0x09, chan, accel & 0x7F, accel >> 7]; the last byte is 0
    for accel within 0..127 and 1 for accel within 128..255. *)
Theorem C9_setAccel_upper_byte PY2 dev c chan accel :
  ready dev c → 0 <= chan < 256 → 0 <= accel <= 255 →
  let c' := sent [0xaa; dev; 0x09; chan; Z.land accel 0x7f; Z.shiftr accel 7] c in
  setAccel PY2 chan accel c = (Ok tt, c')
  ∧ list.last (tx (usb c')) = Some (Z.shiftr accel 7)
  ∧ (accel <= 127 → Z.shiftr accel 7 = 0)
  ∧ (128 <= accel → Z.shiftr accel 7 = 1).
Proof.
  intros Hready Hchan Haccel c'.
  assert (Hmsb : msb_of accel = Z.shiftr accel 7).
  { rewrite msb_of_small by lia. by rewrite Z.shiftr_div_pow2. }
  split.
  { rewrite (setAccel_run _ dev) by done. unfold c'. by rewrite <- Hmsb. }
  split.
  { unfold c', sent. cbn [usb tx]. by rewrite last_app. }
  rewrite Z.shiftr_div_pow2 by lia. change (2 ^ 7) with 128.
  split; intros Hcase.
  - apply Z.div_small. lia.
  - apply Z.le_antisymm.
    + apply Z.lt_succ_r, Z.div_lt_upper_bound; lia.
    + apply Z.div_le_lower_bound; lia.
Qed.

Lemma C9_witness :
  ready 0x0c (default_controller [])
  ∧ setAccel false 1 100 (default_controller [])
    = (Ok tt, sent [0xaa; 0x0c; 0x09; 0x01; 0x64; 0x00] (default_controller [])).
Proof.
  assert (Hready : ready 0x0c (default_controller [])).
  { unfold ready, framed; cbn. repeat split; lia. }
  split; [exact Hready | ].
  exact (proj1 (C9_setAccel_upper_byte false 0x0c (default_controller []) 1 100
                  Hready ltac:(lia) ltac:(lia))).
Defined.

(** C10: when the device answers with the bytes lsb and msb, each within
    0..255, [getPosition] returns [(msb << 8) + lsb].  The result lies within
    0..65535, every value of that range is the result for some answer, and
    an answer with msb >= 64 gives a result above 16383, the largest value
    [setTarget] can encode. *)
Theorem C10_getPosition_range PY2 dev c chan lsb msb rest :
  ready dev c → 0 <= chan < 256 → rx (usb c) = lsb :: msb :: rest →
  0 <= lsb <= 255 → 0 <= msb <= 255 →
  getPosition PY2 chan c
  = (Ok (Z.shiftl msb 8 + lsb), received 2 (sent [0xaa; dev; 0x10; chan] c))
  ∧ 0 <= Z.shiftl msb 8 + lsb <= 65535
  ∧ (64 <= msb → 16383 < Z.shiftl msb 8 + lsb)
  ∧ (∀ p, 0 <= p <= 65535 →
       ∃ l m, 0 <= l <= 255 ∧ 0 <= m <= 255 ∧ decode l m = p).
Proof.
  intros Hready Hchan Hrx Hlsb Hmsb.
  split; [by apply (getPosition_run _ _ _ _ _ _ rest) | ].
  fold (decode lsb msb). rewrite decode_arith.
  split; [lia | ]. split; [lia | ].
  intros p Hp. exists (p `mod` 256), (p `div` 256).
  pose proof (Z.mod_pos_bound p 256 ltac:(lia)).
  pose proof (Z.div_mod p 256 ltac:(lia)).
  assert (0 <= p `div` 256) by (apply Z.div_pos; lia).
  assert (p `div` 256 < 256) by (apply Z.div_lt_upper_bound; lia).
  rewrite decode_arith. lia.
Qed.

Lemma C10_witness :
  ready 0x0c (default_controller [0xff; 0x40])
  ∧ getPosition false 3 (default_controller [0xff; 0x40])
    = (Ok 16639,
       received 2 (sent [0xaa; 0x0c; 0x10; 0x03] (default_controller [0xff; 0x40])))
  ∧ 16383 < 16639.
Proof.
  assert (Hready : ready 0x0c (default_controller [0xff; 0x40])).
  { unfold ready, framed; cbn. repeat split; lia. }
  pose proof (C10_getPosition_range false 0x0c (default_controller [0xff; 0x40])
                3 0xff 0x40 [] Hready ltac:(lia) eq_refl ltac:(lia) ltac:(lia))
    as (Hget & _ & Hbig & _).
  split; [exact Hready | ]. split; [exact Hget | exact (Hbig ltac:(lia))].
Defined.

(** * Further properties of the controller *)

(** ** Table access by channel number *)

Lemma py_index_negative (l : list Z) i :
  - Z.of_nat (length l) <= i < 0 →
  py_index l i = Some (Z.to_nat (Z.of_nat (length l) + i)).
Proof.
  intros Hi. unfold py_index.
  rewrite bool_decide_eq_false_2 by lia. by rewrite bool_decide_eq_true_2.
Qed.

Lemma py_index_outside (l : list Z) i :
  i < - Z.of_nat (length l) ∨ Z.of_nat (length l) <= i → py_index l i = None.
Proof.
  intros Hi. unfold py_index.
  rewrite bool_decide_eq_false_2 by lia. by rewrite bool_decide_eq_false_2 by lia.
Qed.

Lemma item_outside T chan c :
  chan < - Z.of_nat (length (T c)) ∨ Z.of_nat (length (T c)) <= chan →
  item T chan c = (Raise IndexError, c).
Proof.
  intros Hc. unfold item. rewrite bind_run. cbn.
  unfold getitem. by rewrite py_index_outside.
Qed.

Lemma item_negative T chan c :
  - Z.of_nat (length (T c)) <= chan < 0 →
  item T chan c = item T (Z.of_nat (length (T c)) + chan) c.
Proof.
  intros Hc. unfold item. rewrite !bind_run. cbn. unfold getitem.
  rewrite py_index_negative, py_index_nonneg by lia. done.
Qed.

Lemma item_bound T chan c :
  0 <= chan < Z.of_nat (length (T c)) →
  item T chan c = (Ok (bound (T c) chan), c).
Proof.
  intros Hc.
  destruct (lookup_lt_is_Some_2 (T c) (Z.to_nat chan)) as [v Hv]; [lia | ].
  rewrite (item_run T chan c v) by done. unfold bound. by rewrite Hv.
Qed.

Lemma ranged_framed dev chan mn mx c : framed dev c → framed dev (ranged chan mn mx c).
Proof. unfold framed. cbn. by rewrite !length_insert. Qed.

(** X1: on a channel 0..23, [setRange] returns normally and what it recorded
    is what [getMin] and [getMax] return for that channel afterwards; the
    bounds of every other channel, the target table and the port are as
    before (nothing is sent).  The port need not be open. *)
Theorem X1_setRange_then_getMin_getMax dev c chan mn mx :
  framed dev c → 0 <= chan < 24 →
  let c' := ranged chan mn mx c in
  setRange chan mn mx c = (Ok tt, c')
  ∧ getMin chan c' = (Ok mn, c')
  ∧ getMax chan c' = (Ok mx, c')
  ∧ (∀ other, 0 <= other < 24 → other ≠ chan →
       getMin other c' = (Ok (bound (Mins c) other), c')
       ∧ getMax other c' = (Ok (bound (Maxs c) other), c'))
  ∧ usb c' = usb c ∧ Targets c' = Targets c.
Proof.
  intros Hframed Hchan c'.
  pose proof Hframed as (_ & _ & _ & HlenMin & HlenMax).
  pose proof (ranged_framed dev chan mn mx c Hframed) as (_ & _ & _ & HlenMin' & HlenMax').
  fold c' in HlenMin', HlenMax'.
  split; [by apply (setRange_run dev) | ].
  split.
  { apply item_run; [lia | ]. cbn. apply list_lookup_insert_eq. lia. }
  split.
  { apply item_run; [lia | ]. cbn. apply list_lookup_insert_eq. lia. }
  split; [ | done].
  intros other Hother Hne.
  assert (Hnat : Z.to_nat chan ≠ Z.to_nat other) by lia.
  split.
  - unfold getMin. rewrite item_bound by lia. unfold bound. cbn.
    by rewrite list_lookup_insert_ne.
  - unfold getMax. rewrite item_bound by lia. unfold bound. cbn.
    by rewrite list_lookup_insert_ne.
Qed.

Lemma X1_witness :
  framed 0x0c (close (default_controller [])).2
  ∧ getMin 5 (ranged 5 4000 8000 (close (default_controller [])).2)
    = (Ok 4000, ranged 5 4000 8000 (close (default_controller [])).2).
Proof.
  assert (Hframed : framed 0x0c (close (default_controller [])).2).
  { unfold framed; cbn. repeat split; lia. }
  split; [exact Hframed | ].
  exact (proj1 (proj2 (X1_setRange_then_getMin_getMax
                         0x0c (close (default_controller [])).2 5 4000 8000
                         Hframed ltac:(lia)))).
Defined.

(** X2: for a channel number below -24 or above 23, [setRange], [getMin] and
    [getMax] raise [IndexError] and leave the controller as it was. *)
Theorem X2_table_access_outside dev c chan mn mx :
  framed dev c → chan < -24 ∨ 24 <= chan →
  setRange chan mn mx c = (Raise IndexError, c)
  ∧ getMin chan c = (Raise IndexError, c)
  ∧ getMax chan c = (Raise IndexError, c).
Proof.
  intros (_ & _ & _ & HlenMin & HlenMax) Hchan.
  split.
  { unfold setRange. rewrite bind_run. cbn. rewrite bind_run, pure_run.
    unfold setitem. by rewrite py_index_outside by lia. }
  split; apply item_outside; lia.
Qed.

Lemma X2_witness :
  framed 0x0c (default_controller [])
  ∧ setRange 24 5000 7000 (default_controller [])
    = (Raise IndexError, default_controller []).
Proof.
  assert (Hframed : framed 0x0c (default_controller [])).
  { unfold framed; cbn. repeat split; lia. }
  split; [exact Hframed | ].
  exact (proj1 (X2_table_access_outside 0x0c (default_controller []) 24 5000 7000
                  Hframed ltac:(lia))).
Defined.

(** X3: a channel number within -24..-1 is taken from the end of the tables:
    [setRange], [getMin] and [getMax] do for it what they do for the channel
    24 higher. *)
Theorem X3_negative_channel_counts_from_end dev c chan mn mx :
  framed dev c → -24 <= chan < 0 →
  setRange chan mn mx c = (Ok tt, ranged (chan + 24) mn mx c)
  ∧ getMin chan c = (Ok (bound (Mins c) (chan + 24)), c)
  ∧ getMax chan c = (Ok (bound (Maxs c) (chan + 24)), c).
Proof.
  intros Hframed Hchan.
  pose proof Hframed as (_ & _ & _ & HlenMin & HlenMax).
  split.
  { assert (Hmin : setitem (Mins c) chan mn = Ok (<[Z.to_nat (chan + 24) := mn]> (Mins c))).
    { unfold setitem. rewrite py_index_negative by lia. rewrite HlenMin.
      by replace (Z.to_nat (Z.of_nat 24 + chan)) with (Z.to_nat (chan + 24)) by lia. }
    assert (Hmax : setitem (Maxs c) chan mx = Ok (<[Z.to_nat (chan + 24) := mx]> (Maxs c))).
    { unfold setitem. rewrite py_index_negative by lia. rewrite HlenMax.
      by replace (Z.to_nat (Z.of_nat 24 + chan)) with (Z.to_nat (chan + 24)) by lia. }
    unfold setRange. rewrite bind_run. cbn. rewrite bind_run, pure_run, Hmin.
    rewrite bind_run. cbn. rewrite bind_run. cbn.
    by rewrite bind_run, pure_run, Hmax. }
  split.
  - unfold getMin. rewrite item_negative by lia. rewrite HlenMin.
    rewrite item_bound by lia. by replace (Z.of_nat 24 + chan) with (chan + 24) by lia.
  - unfold getMax. rewrite item_negative by lia. rewrite HlenMax.
    rewrite item_bound by lia. by replace (Z.of_nat 24 + chan) with (chan + 24) by lia.
Qed.

Lemma X3_witness :
  framed 0x0c (default_controller [])
  ∧ setRange (-1) 5000 7000 (default_controller [])
    = (Ok tt, ranged 23 5000 7000 (default_controller [])).
Proof.
  assert (Hframed : framed 0x0c (default_controller [])).
  { unfold framed; cbn. repeat split; lia. }
  split; [exact Hframed | ].
  exact (proj1 (X3_negative_channel_counts_from_end
                  0x0c (default_controller []) (-1) 5000 7000 Hframed ltac:(lia))).
Defined.

(** ** Channel numbers and values that do not fit *)

Lemma chr_in_C_range PY2 i :
  -2147483648 <= i < 2147483648 →
  chr PY2 i
  = if bool_decide (0 <= i < (if PY2 then 256 else 1114112)) then Ok [i]
    else Raise ValueError.
Proof.
  intros Hi. unfold chr, c_limit.
  by rewrite (bool_decide_eq_true_2 (_ <= i < _)) by (destruct PY2; lia).
Qed.

Lemma chr_negative PY2 i : -2147483648 <= i < 0 → chr PY2 i = Raise ValueError.
Proof.
  intros Hi. rewrite chr_in_C_range by lia.
  by rewrite bool_decide_eq_false_2 by lia.
Qed.

Lemma chr_python2_large i : 256 <= i < 2147483648 → chr true i = Raise ValueError.
Proof.
  intros Hi. rewrite chr_in_C_range by lia.
  by rewrite bool_decide_eq_false_2 by lia.
Qed.

Lemma chr_python3 i : 0 <= i < 1114112 → chr false i = Ok [i].
Proof.
  intros Hi. rewrite chr_in_C_range by lia.
  by rewrite bool_decide_eq_true_2 by lia.
Qed.

Lemma chr_python3_large i :
  1114112 <= i < 2147483648 → chr false i = Raise ValueError.
Proof.
  intros Hi. rewrite chr_in_C_range by lia.
  by rewrite bool_decide_eq_false_2 by lia.
Qed.

Lemma chr_python3_overflow i :
  i < -2147483648 ∨ 2147483648 <= i → chr false i = Raise OverflowError.
Proof.
  intros Hi. unfold chr, c_limit.
  by rewrite (bool_decide_eq_false_2 (_ <= i < _)) by lia.
Qed.

Lemma encode_latin1_wide (s : str) (x : Z) :
  x ∈ s → ¬ 0 <= x < 256 → encode_latin1 s = Raise UnicodeEncodeError.
Proof.
  intros Hin Hx. unfold encode_latin1.
  destruct (forallb _ s) eqn:Hall; [ | done].
  rewrite forallb_forall in Hall.
  specialize (Hall x (proj1 (list_elem_of_In _ _) Hin)).
  by apply bool_decide_eq_true_1 in Hall.
Qed.

(** The command string of a channel command, by the channel number. *)
Lemma cmd4_channel PY2 op chan value c :
  0 <= op < 256 →
  cmd4 PY2 op chan (lsb_of value) (msb_of value) c
  = (match chr PY2 chan with
     | Ok s => Ok ([op] ++ s ++ [lsb_of value; msb_of value])
     | Raise e => Raise e
     | Hang => Hang
     end, c).
Proof.
  intros Hop. pose proof (lsb_of_range value). pose proof (msb_of_range value).
  unfold cmd4. rewrite bind_run, pure_run, chr_byte by done.
  rewrite bind_run, pure_run. destruct (chr PY2 chan) as [s | e | ]; [ | done | done].
  rewrite bind_run, pure_run, chr_byte by lia.
  rewrite bind_run, pure_run, chr_byte by lia.
  cbn. by rewrite <- !app_assoc.
Qed.

(** A channel command (opcode, channel, two data bytes) on a ready
    controller, by the channel number. *)
Lemma channel_command_run PY2 dev c op chan value :
  ready dev c → 0 <= op < 256 → -2147483648 <= chan < 2147483648 →
  (cmd ← cmd4 PY2 op chan (lsb_of value) (msb_of value); sendCmd PY2 cmd) c
  = if bool_decide (0 <= chan < 256) then (Ok tt, sent (frame dev op chan value) c)
    else if bool_decide (chan < 0) || PY2 || bool_decide (1114112 <= chan)
         then (Raise ValueError, c)
         else (Raise UnicodeEncodeError, c).
Proof.
  intros Hready Hop Hfit. rewrite bind_run, cmd4_channel by done.
  case_bool_decide as Hbyte.
  { rewrite chr_byte by done. apply (sendCmd_run _ dev); [done | ].
    apply frame_bytes; lia. }
  case_bool_decide as Hneg; [by rewrite chr_negative by lia | ].
  destruct PY2; [by rewrite chr_python2_large by lia | ].
  case_bool_decide as Hbig; [by rewrite chr_python3_large by lia | ].
  rewrite chr_python3 by lia. cbn.
  destruct Hready as (_ & _ & Hpre & _).
  unfold sendCmd. rewrite bind_run. cbn. rewrite bind_run, pure_run.
  rewrite (encode_latin1_wide _ chan); [done | | lia].
  rewrite Hpre. apply list_elem_of_In. cbn. tauto.
Qed.

(** On Python 3 a channel number that does not fit a C [int] stops a channel
    command in [chr], whatever the state of the port. *)
Lemma channel_command_overflow c op chan value :
  0 <= op < 256 → chan < -2147483648 ∨ 2147483648 <= chan →
  (cmd ← cmd4 false op chan (lsb_of value) (msb_of value); sendCmd false cmd) c
  = (Raise OverflowError, c).
Proof.
  intros Hop Hchan. rewrite bind_run, cmd4_channel by done.
  by rewrite chr_python3_overflow.
Qed.

(** [setTarget] once the two bounds have been read. *)
Lemma setTarget_after_clamp PY2 c chan target mn mx :
  item Mins chan c = (Ok mn, c) → item Maxs chan c = (Ok mx, c) →
  let v := max_clamp mx (min_clamp mn target) in
  setTarget PY2 chan target c
  = (cmd ← cmd4 PY2 0x04 chan (lsb_of v) (msb_of v);
     sendCmd PY2 cmd ;;
     ts ← get Targets;
     ts' ← pure (setitem ts chan v);
     set_Targets ts') c.
Proof.
  intros Hmin Hmax v. unfold setTarget.
  rewrite (bind_Ok _ _ _ _ _ Hmin).
  erewrite (bind_Ok _ _ c (bool_decide (mn > 0) && bool_decide (target < mn)) c);
    last first.
  { case_bool_decide; [ | done]. by rewrite (bind_Ok _ _ _ _ _ Hmin). }
  erewrite (bind_Ok _ _ c (min_clamp mn target) c); last first.
  { unfold min_clamp. by destruct (_ && _). }
  rewrite (bind_Ok _ _ _ _ _ Hmax).
  erewrite (bind_Ok _ _ c
              (bool_decide (mx > 0) && bool_decide (min_clamp mn target > mx)) c);
    last first.
  { case_bool_decide; [ | done]. by rewrite (bind_Ok _ _ _ _ _ Hmax). }
  erewrite (bind_Ok _ _ c v c); last first.
  { unfold v, max_clamp. by destruct (_ && _). }
  reflexivity.
Qed.

Lemma setTarget_clamped_run PY2 dev c chan target :
  ready dev c → 0 <= chan < 24 →
  setTarget PY2 chan target c
  = (Ok tt,
     stored chan (clamped c chan target)
       (sent (frame dev 0x04 chan (clamped c chan target)) c)).
Proof.
  intros Hready Hchan.
  pose proof Hready as (_ & _ & _ & _ & _ & HlenMin & HlenMax).
  destruct (lookup_lt_is_Some_2 (Mins c) (Z.to_nat chan)) as [mn Hmn]; [lia | ].
  destruct (lookup_lt_is_Some_2 (Maxs c) (Z.to_nat chan)) as [mx Hmx]; [lia | ].
  rewrite (setTarget_run _ dev _ _ _ mn mx) by done.
  unfold clamped, bound, frame. by rewrite Hmn, Hmx.
Qed.

(** X4: on a ready controller [setTarget] returns normally exactly for the
    channels 0..23.  For a channel within -24..-1 the bounds are read from
    the end of the tables and then [chr(chan)] raises [ValueError]; for any
    other channel reading the bound raises [IndexError].  In both cases
    nothing is sent and nothing is stored. *)
Theorem X4_setTarget_by_channel PY2 dev c chan target :
  ready dev c →
  (0 <= chan < 24 →
   setTarget PY2 chan target c
   = (Ok tt,
      stored chan (clamped c chan target)
        (sent (frame dev 0x04 chan (clamped c chan target)) c)))
  ∧ (-24 <= chan < 0 → setTarget PY2 chan target c = (Raise ValueError, c))
  ∧ (chan < -24 ∨ 24 <= chan → setTarget PY2 chan target c = (Raise IndexError, c)).
Proof.
  intros Hready.
  pose proof Hready as (_ & _ & _ & _ & _ & HlenMin & HlenMax).
  split; [by apply setTarget_clamped_run | ].
  split.
  - intros Hchan.
    assert (Hmin : item Mins chan c = (Ok (bound (Mins c) (24 + chan)), c)).
    { rewrite item_negative by lia. rewrite HlenMin. apply item_bound. lia. }
    assert (Hmax : item Maxs chan c = (Ok (bound (Maxs c) (24 + chan)), c)).
    { rewrite item_negative by lia. rewrite HlenMax. apply item_bound. lia. }
    rewrite (setTarget_after_clamp _ _ _ _ _ _ Hmin Hmax).
    rewrite bind_run, cmd4_channel by lia. by rewrite chr_negative by lia.
  - intros Hchan. unfold setTarget.
    rewrite bind_run, item_outside; [done | lia].
Qed.

Lemma X4_witness :
  ready 0x0c (default_controller [])
  ∧ setTarget false (-1) 6000 (default_controller [])
    = (Raise ValueError, default_controller [])
  ∧ setTarget false 24 6000 (default_controller [])
    = (Raise IndexError, default_controller []).
Proof.
  assert (Hready : ready 0x0c (default_controller [])).
  { unfold ready, framed; cbn. repeat split; lia. }
  split; [exact Hready | ]. split.
  - exact (proj1 (proj2 (X4_setTarget_by_channel
                           false 0x0c (default_controller []) (-1) 6000 Hready))
             ltac:(lia)).
  - exact (proj2 (proj2 (X4_setTarget_by_channel
                           false 0x0c (default_controller []) 24 6000 Hready))
             ltac:(lia)).
Defined.

Lemma ready_framed dev c : ready dev c → framed dev c.
Proof. by intros (_ & _ & ?). Qed.

Lemma framed_sent dev data c : framed dev c → framed dev (sent data c).
Proof. done. Qed.

Lemma stored_lookup dev chan v c :
  framed dev c → 0 <= chan < 24 →
  Targets (stored chan v c) !! Z.to_nat chan = Some v.
Proof.
  intros (_ & _ & HlenT & _) Hchan. cbn. apply list_lookup_insert_eq. lia.
Qed.

(** X5: the value [setTarget] stores is never above a set maximum, is never
    below a set minimum unless a set maximum lies below that minimum, and is
    the requested target whenever the target violates neither set bound. *)
Theorem X5_setTarget_stores_within_bounds PY2 dev c chan target :
  ready dev c → 0 <= chan < 24 →
  let mn := bound (Mins c) chan in
  let mx := bound (Maxs c) chan in
  let v := clamped c chan target in
  Targets (setTarget PY2 chan target c).2 !! Z.to_nat chan = Some v
  ∧ (0 < mx → v <= mx)
  ∧ (0 < mn → mx <= 0 ∨ mn <= mx → mn <= v)
  ∧ (mn <= 0 ∨ mn <= target → mx <= 0 ∨ target <= mx → v = target).
Proof.
  intros Hready Hchan mn mx v.
  rewrite (setTarget_clamped_run _ dev) by done.
  split.
  { cbn [snd]. apply (stored_lookup dev); [ | done].
    by pose proof (ready_sent dev (frame dev 0x04 chan v) c Hready) as (_ & _ & ?). }
  unfold v, clamped. fold mn mx. unfold max_clamp, min_clamp.
  clearbody mn mx.
  repeat split; intros; repeat case_bool_decide; cbn in *; lia.
Qed.

Lemma X5_witness :
  ready 0x0c (ranged_controller [])
  ∧ Targets (setTarget false 1 100 (ranged_controller [])).2 !! 1%nat = Some 5000.
Proof.
  assert (Hready : ready 0x0c (ranged_controller [])).
  { unfold ready, framed; cbn. repeat split; lia. }
  split; [exact Hready | ].
  exact (proj1 (X5_setTarget_stores_within_bounds
                  false 0x0c (ranged_controller []) 1 100 Hready ltac:(lia))).
Defined.

Lemma lsb_of_mod_16384 v : lsb_of (v `mod` 16384) = lsb_of v.
Proof.
  rewrite !lsb_of_mod.
  rewrite (Z.div_mod v 16384) at 2 by lia.
  replace (16384 * v `div` 16384 + v `mod` 16384)
    with (v `mod` 16384 + (v `div` 16384 * 128) * 128) by lia.
  by rewrite Z_mod_plus_full.
Qed.

Lemma msb_of_mod_16384 v : msb_of (v `mod` 16384) = msb_of v.
Proof.
  rewrite !msb_of_mod.
  rewrite (Z.div_mod v 16384) at 2 by lia.
  replace (16384 * v `div` 16384 + v `mod` 16384)
    with (v `mod` 16384 + (v `div` 16384 * 128) * 128) by lia.
  rewrite Z_div_plus_full by lia.
  by rewrite Z_mod_plus_full.
Qed.

Lemma data_bytes_value v : lsb_of v + 128 * msb_of v = v `mod` 16384.
Proof.
  rewrite <- lsb_of_mod_16384, <- msb_of_mod_16384.
  pose proof (Z.mod_pos_bound v 16384 ltac:(lia)) as Hr.
  rewrite lsb_of_mod, msb_of_small by lia.
  pose proof (Z.div_mod (v `mod` 16384) 128 ltac:(lia)). lia.
Qed.

(** X6: the two data bytes of a frame carry the value modulo 16384 (its 14
    low bits), for every integer value.  So [setSpeed] sends for any speed
    the frame of speed mod 16384, and [setTarget] on a channel without
    bounds sends the frame of target mod 16384 while it stores the target
    itself: above 16383 the table and the device disagree. *)
Theorem X6_frames_carry_value_mod_16384 PY2 dev c chan value :
  ready dev c → 0 <= chan < 24 →
  lsb_of value + 128 * msb_of value = value `mod` 16384
  ∧ setSpeed PY2 chan value c
    = (Ok tt, sent (frame dev 0x07 chan (value `mod` 16384)) c)
  ∧ (bound (Mins c) chan = 0 → bound (Maxs c) chan = 0 →
     setTarget PY2 chan value c
     = (Ok tt,
        stored chan value (sent (frame dev 0x04 chan (value `mod` 16384)) c))).
Proof.
  intros Hready Hchan.
  split; [apply data_bytes_value | ].
  split.
  { rewrite (setSpeed_run _ dev) by (done || lia).
    unfold frame. by rewrite lsb_of_mod_16384, msb_of_mod_16384. }
  intros Hmn Hmx. rewrite (setTarget_clamped_run _ dev) by done.
  unfold clamped. rewrite Hmn, Hmx. unfold frame.
  by rewrite lsb_of_mod_16384, msb_of_mod_16384.
Qed.

Lemma X6_witness :
  ready 0x0c (default_controller [])
  ∧ setTarget false 0 22384 (default_controller [])
    = (Ok tt,
       stored 0 22384 (sent (frame 0x0c 0x04 0 6000) (default_controller []))).
Proof.
  assert (Hready : ready 0x0c (default_controller [])).
  { unfold ready, framed; cbn. repeat split; lia. }
  split; [exact Hready | ].
  exact (proj2 (proj2 (X6_frames_carry_value_mod_16384
                         false 0x0c (default_controller []) 0 22384
                         Hready ltac:(lia))) eq_refl eq_refl).
Defined.

(** X7: [setSpeed] and [setAccel] do not look at the tables: on a ready
    controller they send their frame for every channel number 0..255, also
    above 23, and change nothing but the port's output.  For the other
    channel numbers that fit a C [int] (-2^31 .. 2^31-1), a negative channel
    raises [ValueError]; a channel above 255 raises [ValueError] on Python 2
    (and from 0x110000 on), [UnicodeEncodeError] on Python 3.  On Python 3 a
    channel number that does not fit a C [int] raises [OverflowError].
    Nothing is sent in any of these cases. *)
Theorem X7_setSpeed_setAccel_by_channel PY2 dev c chan value :
  ready dev c →
  (-2147483648 <= chan < 2147483648 →
   setSpeed PY2 chan value c
   = (if bool_decide (0 <= chan < 256)
      then (Ok tt, sent (frame dev 0x07 chan value) c)
      else if bool_decide (chan < 0) || PY2 || bool_decide (1114112 <= chan)
           then (Raise ValueError, c)
           else (Raise UnicodeEncodeError, c))
   ∧ setAccel PY2 chan value c
     = (if bool_decide (0 <= chan < 256)
        then (Ok tt, sent (frame dev 0x09 chan value) c)
        else if bool_decide (chan < 0) || PY2 || bool_decide (1114112 <= chan)
             then (Raise ValueError, c)
             else (Raise UnicodeEncodeError, c)))
  ∧ (chan < -2147483648 ∨ 2147483648 <= chan →
     setSpeed false chan value c = (Raise OverflowError, c)
     ∧ setAccel false chan value c = (Raise OverflowError, c)).
Proof.
  intros Hready. split.
  - intros Hfit. split.
    + unfold setSpeed. cbv zeta. by apply channel_command_run.
    + unfold setAccel. cbv zeta. by apply channel_command_run.
  - intros Hchan. split.
    + unfold setSpeed. cbv zeta. by apply channel_command_overflow.
    + unfold setAccel. cbv zeta. by apply channel_command_overflow.
Qed.

Lemma X7_witness :
  ready 0x0c (default_controller [])
  ∧ setSpeed false 200 1000 (default_controller [])
    = (Ok tt, sent [0xaa; 0x0c; 0x07; 200; 0x68; 0x07] (default_controller []))
  ∧ setSpeed false 300 1000 (default_controller [])
    = (Raise UnicodeEncodeError, default_controller []).
Proof.
  assert (Hready : ready 0x0c (default_controller [])).
  { unfold ready, framed; cbn. repeat split; lia. }
  split; [exact Hready | ]. split.
  - exact (proj1 (proj1 (X7_setSpeed_setAccel_by_channel
                           false 0x0c (default_controller []) 200 1000 Hready)
                    ltac:(lia))).
  - exact (proj1 (proj1 (X7_setSpeed_setAccel_by_channel
                           false 0x0c (default_controller []) 300 1000 Hready)
                    ltac:(lia))).
Defined.

(** ** A device number that is not a byte *)

Lemma sendCmd_wide_device dev c cmd :
  PololuCmd c = [0xaa; dev] → 256 <= dev →
  sendCmd false cmd c = (Raise UnicodeEncodeError, c).
Proof.
  intros Hpre Hdev. unfold sendCmd. rewrite bind_run. cbn.
  rewrite bind_run, pure_run.
  rewrite (encode_latin1_wide _ dev); [done | | lia].
  rewrite Hpre. apply list_elem_of_In. cbn. tauto.
Qed.

(** X8: with a device number within 256..0x10FFFF the constructor raises
    [ValueError] on Python 2; on Python 3 it returns a controller, and every
    command of that controller raises [UnicodeEncodeError] without sending a
    byte or touching the tables. *)
Theorem X8_device_number_above_255 port device chan value :
  line_ok port = true → 256 <= device < 1114112 → 0 <= chan < 24 →
  init true port device = Raise ValueError
  ∧ ∃ c, init false port device = Ok c
         ∧ setTarget false chan value c = (Raise UnicodeEncodeError, c)
         ∧ setSpeed false chan value c = (Raise UnicodeEncodeError, c)
         ∧ setAccel false chan value c = (Raise UnicodeEncodeError, c)
         ∧ getPosition false chan c = (Raise UnicodeEncodeError, c)
         ∧ getMovingState false c = (Raise UnicodeEncodeError, c)
         ∧ stopScript false c = (Raise UnicodeEncodeError, c).
Proof.
  intros Hline Hdev Hchan. split.
  { unfold init. rewrite Hline, chr_byte by lia. cbn.
    by rewrite chr_python2_large by lia. }
  eexists. split.
  { unfold init. rewrite Hline, chr_byte, chr_python3 by lia. cbn. reflexivity. }
  set (c := mkController _ _ _ _ _).
  assert (Hsend : ∀ cmd, sendCmd false cmd c = (Raise UnicodeEncodeError, c)).
  { intros cmd. apply (sendCmd_wide_device device); [done | lia]. }
  split.
  { rewrite (setTarget_after_clamp false c chan value 0 0);
      [ | apply item_run; [cbn; lia | ]; apply (lookup_replicate_2 24%nat); lia
        | apply item_run; [cbn; lia | ]; apply (lookup_replicate_2 24%nat); lia ].
    rewrite bind_run, cmd4_channel, chr_byte by lia.
    by rewrite bind_run, Hsend. }
  split.
  { unfold setSpeed. cbv zeta. rewrite bind_run, cmd4_channel, chr_byte by lia.
    apply Hsend. }
  split.
  { unfold setAccel. cbv zeta. rewrite bind_run, cmd4_channel, chr_byte by lia.
    apply Hsend. }
  split.
  { unfold getPosition. rewrite bind_run, pure_run, chr_byte by lia.
    rewrite bind_run, pure_run, chr_byte by lia. by rewrite bind_run, Hsend. }
  split.
  { unfold getMovingState. rewrite bind_run, pure_run, chr_byte by lia.
    by rewrite bind_run, Hsend. }
  unfold stopScript. rewrite bind_run, pure_run, chr_byte by lia. apply Hsend.
Qed.

Lemma X8_witness :
  init true (fresh_port []) 300 = Raise ValueError
  ∧ ∃ c, init false (fresh_port []) 300 = Ok c
         ∧ setTarget false 1 6000 c = (Raise UnicodeEncodeError, c).
Proof.
  destruct (X8_device_number_above_255 (fresh_port []) 300 1 6000
              eq_refl ltac:(lia) ltac:(lia)) as (Hpy2 & c & Hinit & Hset & _).
  split; [exact Hpy2 | ]. exists c. split; [exact Hinit | exact Hset].
Defined.

(** ** Queries the device does not answer *)

Lemma usb_read_blocks PY2 c :
  is_open (usb c) = true → line_ok (usb c) = true → rx (usb c) = [] →
  usb_read PY2 c = (Hang, c).
Proof.
  intros Hopen Hline Hrx. unfold usb_read, Serial_read.
  rewrite Hopen, Hline, Hrx. cbn. destruct c as [[] ? ? ? ?]. cbn in *. by subst.
Qed.

Lemma getPosition_silent PY2 dev c chan :
  ready dev c → 0 <= chan < 256 → rx (usb c) = [] →
  getPosition PY2 chan c = (Hang, sent [0xaa; dev; 0x10; chan] c).
Proof.
  intros Hready Hchan Hrx. pose proof Hready as (Hopen & Hline & _).
  unfold getPosition.
  rewrite bind_run, pure_run, chr_byte by lia.
  rewrite bind_run, pure_run, chr_byte by lia.
  erewrite bind_Ok; last first.
  { apply (sendCmd_run _ dev); [done | repeat constructor; lia]. }
  rewrite bind_run. by rewrite usb_read_blocks.
Qed.

(** X9: a query is sent before its answer is awaited.  When the device sends
    nothing, [getPosition] and [getMovingState] block for ever with their
    query frame written; when it sends a single byte, [getPosition] takes it
    and blocks on the second. *)
Theorem X9_queries_block_after_sending PY2 dev c chan :
  ready dev c → 0 <= chan < 256 →
  (rx (usb c) = [] →
   getPosition PY2 chan c = (Hang, sent [0xaa; dev; 0x10; chan] c)
   ∧ getMovingState PY2 c = (Hang, sent [0xaa; dev; 0x13] c))
  ∧ (∀ b, rx (usb c) = [b] →
     getPosition PY2 chan c
     = (Hang, received 1 (sent [0xaa; dev; 0x10; chan] c))).
Proof.
  intros Hready Hchan.
  pose proof Hready as (Hopen & Hline & _).
  split.
  - intros Hrx. split; [by apply getPosition_silent | ].
    unfold getMovingState.
    rewrite bind_run, pure_run, chr_byte by lia.
    erewrite bind_Ok; last first.
    { apply (sendCmd_run _ dev); [done | repeat constructor; lia]. }
    rewrite bind_run. by rewrite usb_read_blocks.
  - intros b Hrx. unfold getPosition.
    rewrite bind_run, pure_run, chr_byte by lia.
    rewrite bind_run, pure_run, chr_byte by lia.
    erewrite bind_Ok; last first.
    { apply (sendCmd_run _ dev); [done | repeat constructor; lia]. }
    erewrite bind_Ok by (by apply (usb_read_run _ _ b [])).
    rewrite bind_run, pure_run, ord_read.
    rewrite bind_run, usb_read_blocks; [done | done | done | ].
    cbn. by rewrite Hrx.
Qed.

Lemma X9_witness :
  ready 0x0c (default_controller [])
  ∧ getPosition false 3 (default_controller [])
    = (Hang, sent [0xaa; 0x0c; 0x10; 0x03] (default_controller [])).
Proof.
  assert (Hready : ready 0x0c (default_controller [])).
  { unfold ready, framed; cbn. repeat split; lia. }
  split; [exact Hready | ].
  exact (proj1 (proj1 (X9_queries_block_after_sending
                         false 0x0c (default_controller []) 3 Hready ltac:(lia))
                  eq_refl)).
Defined.

(** ** [isMoving] after [setTarget] *)

Lemma decode_bytes_of p : decode (p `mod` 256) (p `div` 256) = p.
Proof. rewrite decode_arith. pose proof (Z.div_mod p 256). lia. Qed.

(** X10: after [setTarget(chan, target)] has stored the value v, [isMoving]
    asks the device only if v > 0, and is then True exactly when the two
    answer bytes do not give v; it is False when the device answers with the
    low and the high byte of v.  With v <= 0 it is False and the device is
    not asked. *)
Theorem X10_isMoving_after_setTarget PY2 dev c chan target lsb msb rest :
  ready dev c → 0 <= chan < 24 → rx (usb c) = lsb :: msb :: rest →
  let v := clamped c chan target in
  let c1 := stored chan v (sent (frame dev 0x04 chan v) c) in
  (setTarget PY2 chan target ;; isMoving PY2 chan) c
  = (if bool_decide (v > 0)
     then (Ok (bool_decide (decode lsb msb ≠ v)),
           received 2 (sent [0xaa; dev; 0x10; chan] c1))
     else (Ok false, c1))
  ∧ (lsb = v `mod` 256 → msb = v `div` 256 →
     ((setTarget PY2 chan target ;; isMoving PY2 chan) c).1 = Ok false).
Proof.
  intros Hready Hchan Hrx v c1.
  assert (Hready1 : ready dev c1).
  { apply ready_stored, ready_sent, Hready. }
  pose proof Hready1 as (_ & _ & Hframed1).
  pose proof Hframed1 as (_ & _ & HlenT & _).
  assert (Hitem : item Targets chan c1 = (Ok v, c1)).
  { apply item_run; [lia | ].
    apply (stored_lookup dev); [ | done]. by apply framed_sent, ready_framed. }
  assert (Hrun : (setTarget PY2 chan target ;; isMoving PY2 chan) c
    = (if bool_decide (v > 0)
       then (Ok (bool_decide (decode lsb msb ≠ v)),
             received 2 (sent [0xaa; dev; 0x10; chan] c1))
       else (Ok false, c1))).
  { erewrite bind_Ok by (by apply (setTarget_clamped_run _ dev)).
    fold v c1. unfold isMoving.
    rewrite (bind_Ok _ _ _ _ _ Hitem).
    case_bool_decide as Hv; [ | done].
    erewrite bind_Ok; last first.
    { apply (getPosition_run _ dev _ _ lsb msb rest); [done | lia | done]. }
    erewrite bind_Ok; last first.
    { apply (item_run Targets chan _ v);
        change (Targets (received _ _)) with (Targets c1).
      - rewrite HlenT. lia.
      - apply (stored_lookup dev); [ | done]. by apply framed_sent, ready_framed. }
    by case_bool_decide. }
  split; [exact Hrun | ].
  intros -> ->. rewrite Hrun, decode_bytes_of.
  case_bool_decide; [ | done]. cbn. by rewrite bool_decide_eq_false_2 by tauto.
Qed.

Lemma X10_witness :
  ready 0x0c (default_controller [0x70; 0x17])
  ∧ ((setTarget false 2 6000 ;; isMoving false 2)
       (default_controller [0x70; 0x17])).1 = Ok false.
Proof.
  assert (Hready : ready 0x0c (default_controller [0x70; 0x17])).
  { unfold ready, framed; cbn. repeat split; lia. }
  split; [exact Hready | ].
  exact (proj2 (X10_isMoving_after_setTarget
                  false 0x0c (default_controller [0x70; 0x17]) 2 6000 0x70 0x17 []
                  Hready ltac:(lia) eq_refl) eq_refl eq_refl).
Defined.

(** ** Gestures *)

Lemma ready_ranged dev chan mn mx c : ready dev c → ready dev (ranged chan mn mx c).
Proof.
  intros (Hopen & Hline & Hframed).
  split; [exact Hopen | ]. split; [exact Hline | by apply ranged_framed].
Qed.

Lemma ranged_bounds dev chan mn mx c :
  framed dev c → 0 <= chan < 24 →
  bound (Mins (ranged chan mn mx c)) chan = mn
  ∧ bound (Maxs (ranged chan mn mx c)) chan = mx.
Proof.
  intros (_ & _ & _ & HlenMin & HlenMax) Hchan. unfold bound. cbn.
  by rewrite !list_lookup_insert_eq by lia.
Qed.

Lemma speed_then_target_run PY2 dev c chan target :
  ready dev c → 0 <= chan < 24 →
  (setSpeed PY2 chan 1000 ;; setTarget PY2 chan target) c
  = (Ok tt,
     stored chan (clamped c chan target)
       (sent (frame dev 0x04 chan (clamped c chan target))
          (sent (frame dev 0x07 chan 1000) c))).
Proof.
  intros Hready Hchan.
  erewrite bind_Ok by (apply (setSpeed_run _ dev); [done | lia]).
  rewrite (setTarget_clamped_run _ dev); [reflexivity | by apply ready_sent | done].
Qed.

(** Range, speed, target: the body of every gesture with a fixed target. *)
Lemma gesture_run PY2 dev c chan lo hi target :
  ready dev c → 0 <= chan < 24 → 0 < lo → lo <= target <= hi →
  (setRange chan lo hi ;; setSpeed PY2 chan 1000 ;; setTarget PY2 chan target) c
  = (Ok tt,
     stored chan target
       (sent (frame dev 0x04 chan target)
          (sent (frame dev 0x07 chan 1000) (ranged chan lo hi c)))).
Proof.
  intros Hready Hchan Hlo Htarget.
  erewrite bind_Ok by (apply (setRange_run dev); [by apply ready_framed | done]).
  fold (ranged chan lo hi c).
  rewrite (speed_then_target_run _ dev); [ | by apply ready_ranged | done].
  assert (Hv : clamped (ranged chan lo hi c) chan target = target).
  { unfold clamped.
    destruct (ranged_bounds dev chan lo hi c) as [-> ->];
      [by apply ready_framed | done | ].
    unfold max_clamp, min_clamp.
    rewrite (bool_decide_eq_false_2 (target < lo)) by lia.
    rewrite andb_false_r.
    rewrite (bool_decide_eq_false_2 (target > hi)) by lia.
    by rewrite andb_false_r. }
  by rewrite Hv.
Qed.

Lemma ranged_fixed chan mn mx c :
  Mins c !! Z.to_nat chan = Some mn → Maxs c !! Z.to_nat chan = Some mx →
  ranged chan mn mx c = c.
Proof.
  intros Hmn Hmx. destruct c. unfold ranged. cbn in *.
  by rewrite !list_insert_id.
Qed.

Lemma stored_fixed chan v c :
  Targets c !! Z.to_nat chan = Some v → stored chan v c = c.
Proof.
  intros Hv. destruct c. unfold stored. cbn in *. by rewrite list_insert_id.
Qed.

(** X11: on a ready controller each gesture with a fixed target (the two
    turns, the three forward and three backward moves, the stop) returns
    normally after recording the range 5000..7000 for its channel, sending
    the speed frame for 1000 and then the target frame, and storing its own
    target unclamped. *)
Theorem X11_absolute_gestures PY2 dev c :
  ready dev c →
  Forall (λ '(gesture, chan, target),
            gesture c
            = (Ok tt,
               stored chan target
                 (sent (frame dev 0x04 chan target)
                    (sent (frame dev 0x07 chan 1000) (ranged chan 5000 7000 c)))))
         (absolute_gestures PY2).
Proof.
  intros Hready. unfold absolute_gestures.
  repeat apply Forall_cons_2; [ .. | apply Forall_nil_2].
  all: lazy beta iota;
    match goal with
    | |- _ = (Ok tt, stored ?chan ?target _) =>
        apply (gesture_run PY2 dev c chan 5000 7000 target); [done | lia | lia | lia]
    end.
Qed.

Lemma X11_witness :
  ready 0x0c (default_controller [])
  ∧ turnLeft false (default_controller [])
    = (Ok tt,
       stored 2 5000
         (sent (frame 0x0c 0x04 2 5000)
            (sent (frame 0x0c 0x07 2 1000) (ranged 2 5000 7000 (default_controller []))))).
Proof.
  assert (Hready : ready 0x0c (default_controller [])).
  { unfold ready, framed; cbn. repeat split; lia. }
  split; [exact Hready | ].
  pose proof (X11_absolute_gestures false 0x0c (default_controller []) Hready) as H.
  apply Forall_cons_1 in H as [_ H]. apply Forall_cons_1 in H as [H _].
  exact H.
Defined.

(** X12: a gesture with a fixed target made a second time changes no table:
    it sends its two frames again and nothing else. *)
Theorem X12_absolute_gestures_repeat PY2 dev c :
  ready dev c →
  Forall (λ '(gesture, chan, target),
            gesture (gesture c).2
            = (Ok tt,
               sent (frame dev 0x04 chan target)
                 (sent (frame dev 0x07 chan 1000) (gesture c).2)))
         (absolute_gestures PY2).
Proof.
  intros Hready.
  assert (Hrepeat : ∀ chan target, 0 <= chan < 24 → 5000 <= target <= 7000 →
    let c1 := stored chan target
                (sent (frame dev 0x04 chan target)
                   (sent (frame dev 0x07 chan 1000) (ranged chan 5000 7000 c))) in
    (setRange chan 5000 7000 ;; setSpeed PY2 chan 1000 ;; setTarget PY2 chan target) c1
    = (Ok tt, sent (frame dev 0x04 chan target) (sent (frame dev 0x07 chan 1000) c1))).
  { intros chan target Hchan Htarget c1.
    pose proof Hready as (_ & _ & Hframed).
    pose proof Hframed as (_ & _ & HlenT & HlenMin & HlenMax).
    assert (Hready1 : ready dev c1).
    { by apply ready_stored, ready_sent, ready_sent, ready_ranged. }
    assert (HT : Targets c1 !! Z.to_nat chan = Some target).
    { apply list_lookup_insert_eq. cbn. lia. }
    assert (Hmn : Mins c1 !! Z.to_nat chan = Some 5000).
    { apply list_lookup_insert_eq. lia. }
    assert (Hmx : Maxs c1 !! Z.to_nat chan = Some 7000).
    { apply list_lookup_insert_eq. lia. }
    clearbody c1.
    rewrite (gesture_run _ dev) by (done || lia).
    rewrite (ranged_fixed chan 5000 7000 c1) by done.
    by rewrite stored_fixed. }
  unfold absolute_gestures.
  repeat apply Forall_cons_2; [ .. | apply Forall_nil_2].
  all: lazy beta iota;
    match goal with
    | |- ?g (?g ?c0).2 = (Ok tt, sent (frame _ _ ?chan ?target) _) =>
        let H := fresh in
        assert (H : g c0
                    = (Ok tt,
                       stored chan target
                         (sent (frame dev 0x04 chan target)
                            (sent (frame dev 0x07 chan 1000)
                               (ranged chan 5000 7000 c0)))))
          by (apply (gesture_run PY2 dev c0 chan 5000 7000 target);
              [done | lia | lia | lia]);
        rewrite H;
        cbn [snd]; apply (Hrepeat chan target); lia
    end.
Qed.

Lemma X12_witness :
  ready 0x0c (default_controller [])
  ∧ stopMotion false (stopMotion false (default_controller [])).2
    = (Ok tt,
       sent (frame 0x0c 0x04 1 6000)
         (sent (frame 0x0c 0x07 1 1000)
            (stopMotion false (default_controller [])).2)).
Proof.
  assert (Hready : ready 0x0c (default_controller [])).
  { unfold ready, framed; cbn. repeat split; lia. }
  split; [exact Hready | ].
  pose proof (X12_absolute_gestures_repeat false 0x0c (default_controller []) Hready) as H.
  do 8 (apply Forall_cons_1 in H as [_ H]). apply Forall_cons_1 in H as [H _].
  exact H.
Defined.

(** Range, speed, then a step from the reported position: the body of the
    four head gestures. *)
Lemma relative_gesture_run PY2 dev c chan (go : Z → bool) (next : Z → Z)
    l1 m1 l2 m2 rest :
  ready dev c → 0 <= chan < 24 → rx (usb c) = l1 :: m1 :: l2 :: m2 :: rest →
  let query := [0xaa; dev; 0x10; chan] in
  let c2 := sent (frame dev 0x07 chan 1000) (ranged chan 4000 8000 c) in
  let c3 := received 2 (sent query c2) in
  let c4 := received 2 (sent query c3) in
  let v := max_clamp 8000 (min_clamp 4000 (next (decode l2 m2))) in
  (setRange chan 4000 8000 ;;
   setSpeed PY2 chan 1000 ;;
   pos ← getPosition PY2 chan;
   if go pos
   then pos' ← getPosition PY2 chan; setTarget PY2 chan (next pos')
   else mret tt) c
  = (if go (decode l1 m1)
     then (Ok tt, stored chan v (sent (frame dev 0x04 chan v) c4))
     else (Ok tt, c3)).
Proof.
  intros Hready Hchan Hrx query c2 c3 c4 v.
  assert (Hready2 : ready dev c2) by by apply ready_sent, ready_ranged.
  assert (Hready3 : ready dev c3) by done.
  assert (Hready4 : ready dev c4) by done.
  erewrite bind_Ok by (apply (setRange_run dev); [by apply ready_framed | done]).
  fold (ranged chan 4000 8000 c).
  erewrite bind_Ok by (apply (setSpeed_run _ dev); [by apply ready_ranged | lia]).
  erewrite bind_Ok; last first.
  { apply (getPosition_run _ dev _ _ l1 m1 (l2 :: m2 :: rest));
      [exact Hready2 | lia | done]. }
  fold query c2 c3.
  destruct (go (decode l1 m1)); [ | done].
  erewrite bind_Ok; last first.
  { apply (getPosition_run _ dev _ _ l2 m2 rest); [exact Hready3 | lia | ].
    cbn. by rewrite Hrx. }
  fold query c4.
  rewrite (setTarget_clamped_run _ dev) by done.
  assert (Hv : clamped c4 chan (next (decode l2 m2)) = v).
  { unfold clamped.
    change (Mins c4) with (Mins (ranged chan 4000 8000 c)).
    change (Maxs c4) with (Maxs (ranged chan 4000 8000 c)).
    by destruct (ranged_bounds dev chan 4000 8000 c) as [-> ->];
      [by apply ready_framed | done | ]. }
  rewrite <- Hv. reflexivity.
Qed.

(** X13: a head gesture (rotate right or left, tilt up or down) records the
    range 4000..8000, sends the speed frame and asks for the position.  If
    the first report is already at or beyond the limit it is heading for,
    nothing more is sent and the target table is as before.  Otherwise it
    asks a second time, steps by 1000 from the second report, and stores that
    clamped to 4000..8000: the stored value is never outside the range. *)
Theorem X13_relative_gestures PY2 dev c l1 m1 l2 m2 rest :
  ready dev c → rx (usb c) = l1 :: m1 :: l2 :: m2 :: rest →
  Forall (λ '(gesture, chan, go, next),
            let query := [0xaa; dev; 0x10; chan] in
            let c2 := sent (frame dev 0x07 chan 1000) (ranged chan 4000 8000 c) in
            let c3 := received 2 (sent query c2) in
            let c4 := received 2 (sent query c3) in
            let v := max_clamp 8000 (min_clamp 4000 (next (decode l2 m2))) in
            gesture c
            = (if go (decode l1 m1) : bool
               then (Ok tt, stored chan v (sent (frame dev 0x04 chan v) c4))
               else (Ok tt, c3))
            ∧ 4000 <= v <= 8000
            ∧ Targets c3 = Targets c)
         (relative_gestures PY2).
Proof.
  intros Hready Hrx.
  assert (Hv : ∀ x, 4000 <= max_clamp 8000 (min_clamp 4000 x) <= 8000).
  { intros x. unfold max_clamp, min_clamp.
    rewrite (bool_decide_eq_true_2 (8000 > 0)), (bool_decide_eq_true_2 (4000 > 0))
      by lia.
    cbn [andb].
    destruct (bool_decide (x < 4000)) eqn:Hlow.
    - by rewrite bool_decide_eq_false_2 by lia.
    - apply bool_decide_eq_false_1 in Hlow. case_bool_decide; lia. }
  unfold relative_gestures.
  repeat apply Forall_cons_2; [ .. | apply Forall_nil_2].
  all: lazy beta iota zeta; split; [ | split; [apply Hv | reflexivity]].
  - apply (relative_gesture_run PY2 dev c 3 (λ pos, bool_decide (pos < 8000))
             (λ pos, pos + 1000) l1 m1 l2 m2 rest); [done | lia | done].
  - apply (relative_gesture_run PY2 dev c 3 (λ pos, bool_decide (pos > 4000))
             (λ pos, pos - 1000) l1 m1 l2 m2 rest); [done | lia | done].
  - apply (relative_gesture_run PY2 dev c 4 (λ pos, bool_decide (pos < 8000))
             (λ pos, pos + 1000) l1 m1 l2 m2 rest); [done | lia | done].
  - apply (relative_gesture_run PY2 dev c 4 (λ pos, bool_decide (pos > 4000))
             (λ pos, pos - 1000) l1 m1 l2 m2 rest); [done | lia | done].
Qed.

Lemma X13_witness :
  ready 0x0c (default_controller [0x58; 0x1b; 0x58; 0x1b])
  ∧ Targets (rotateHeadRight false (default_controller [0x58; 0x1b; 0x58; 0x1b])).2
      !! 3%nat = Some 8000.
Proof.
  assert (Hready : ready 0x0c (default_controller [0x58; 0x1b; 0x58; 0x1b])).
  { unfold ready, framed; cbn. repeat split; lia. }
  split; [exact Hready | ].
  pose proof (X13_relative_gestures false 0x0c
                (default_controller [0x58; 0x1b; 0x58; 0x1b])
                0x58 0x1b 0x58 0x1b [] Hready eq_refl) as H.
  apply Forall_cons_1 in H as [[H _] _].
  rewrite H. reflexivity.
Defined.

(** ** [resetAll] *)

Lemma centred_ready dev chan c : ready dev c → ready dev (centred dev chan c).
Proof. intros Hready. by apply ready_stored, ready_sent, ready_sent. Qed.

Lemma centred_clamped dev chan c other target :
  clamped (centred dev chan c) other target = clamped c other target.
Proof. reflexivity. Qed.

Lemma centred_run PY2 dev c chan :
  ready dev c → 0 <= chan < 24 →
  (setSpeed PY2 chan 1000 ;; setTarget PY2 chan 6000) c = (Ok tt, centred dev chan c).
Proof. intros Hready Hchan. by rewrite (speed_then_target_run _ dev). Qed.

Lemma resetAll_run PY2 dev c :
  ready dev c →
  resetAll PY2 c
  = (Ok tt, centred dev 1 (centred dev 2 (centred dev 0
              (centred dev 4 (centred dev 3 c))))).
Proof.
  intros Hready. unfold resetAll.
  assert (Hstep : ∀ chan c0 (k : M unit), ready dev c0 → 0 <= chan < 24 →
    (setSpeed PY2 chan 1000 ;; setTarget PY2 chan 6000 ;; k) c0
    = k (centred dev chan c0)).
  { intros chan c0 k Hready0 Hchan.
    erewrite bind_Ok by (apply (setSpeed_run _ dev); [done | lia]).
    erewrite bind_Ok;
      [ | apply (setTarget_clamped_run _ dev); [by apply ready_sent | done]].
    reflexivity. }
  rewrite Hstep by (done || lia).
  rewrite Hstep by (by apply centred_ready || lia).
  rewrite Hstep by (by repeat apply centred_ready || lia).
  rewrite Hstep by (by repeat apply centred_ready || lia).
  apply centred_run; [by repeat apply centred_ready | lia].
Qed.

(** X14: on a ready controller [resetAll] returns normally after sending,
    for the channels 3, 4, 0, 2, 1 in this order, the speed frame for 1000
    and a target frame.  It sets no range: each of the five channels ends at
    6000 clamped by the bounds the channel already has, the other channels
    keep their targets, and the bounds are as before. *)
Theorem X14_resetAll PY2 dev c :
  ready dev c →
  let c' := centred dev 1 (centred dev 2 (centred dev 0
              (centred dev 4 (centred dev 3 c)))) in
  resetAll PY2 c = (Ok tt, c')
  ∧ (∀ chan, 0 <= chan <= 4 →
       Targets c' !! Z.to_nat chan = Some (clamped c chan 6000))
  ∧ (∀ chan, 5 <= chan → Targets c' !! Z.to_nat chan = Targets c !! Z.to_nat chan)
  ∧ Mins c' = Mins c ∧ Maxs c' = Maxs c ∧ rx (usb c') = rx (usb c).
Proof.
  intros Hready c'.
  pose proof Hready as (_ & _ & _ & _ & HlenT & _).
  split; [by apply resetAll_run | ].
  split.
  { intros chan Hchan.
    assert (chan = 0 ∨ chan = 1 ∨ chan = 2 ∨ chan = 3 ∨ chan = 4) as Hcase by lia.
    unfold c', centred. cbn [Targets stored sent].
    destruct Hcase as [-> | [-> | [-> | [-> | ->]]]];
      repeat (rewrite list_lookup_insert_ne by (cbn; lia));
      by rewrite list_lookup_insert_eq by (rewrite ?length_insert; cbn; lia). }
  split; [ | done].
  intros chan Hchan. unfold c', centred. cbn [Targets stored sent].
  by rewrite !list_lookup_insert_ne by (cbn; lia).
Qed.

Lemma X14_witness :
  ready 0x0c (ranged_controller [])
  ∧ Targets (resetAll false (ranged_controller [])).2
    = [6000; 6000; 6000; 6000; 6000; 0; 0; 0; 0; 0; 0; 0;
       0; 0; 0; 0; 0; 0; 0; 0; 0; 0; 0; 0].
Proof.
  assert (Hready : ready 0x0c (ranged_controller [])).
  { unfold ready, framed; cbn. repeat split; lia. }
  split; [exact Hready | ].
  rewrite (proj1 (X14_resetAll false 0x0c (ranged_controller []) Hready)).
  reflexivity.
Defined.

(** ** What every method keeps *)

Section Always.

Variable R : relation Controller.
Context `{!PreOrder R}.

(** The four places where a method changes the controller. *)
Hypothesis R_write : ∀ data c, R c (usb_write data c).2.
Hypothesis R_read : ∀ PY2 c, R c (usb_read PY2 c).2.
Hypothesis R_Targets : ∀ c chan v l,
  setitem (Targets c) chan v = Ok l → R c (set_Targets l c).2.
Hypothesis R_Mins : ∀ c chan v l,
  setitem (Mins c) chan v = Ok l → R c (set_Mins l c).2.
Hypothesis R_Maxs : ∀ c chan v l,
  setitem (Maxs c) chan v = Ok l → R c (set_Maxs l c).2.

Lemma always_ret {A} (a : A) : always R (mret a : M A).
Proof. intros c. reflexivity. Qed.

Lemma always_pure {A} (o : outcome A) : always R (pure o).
Proof. intros c. reflexivity. Qed.

Lemma always_get {A} (f : Controller → A) : always R (get f).
Proof. intros c. reflexivity. Qed.

Lemma always_bind {A B} (m : M A) (f : A → M B) :
  always R m → (∀ a, always R (f a)) → always R (m ≫= f).
Proof.
  intros Hm Hf c. rewrite bind_run. specialize (Hm c).
  destruct (m c) as [[a | e | ] c1]; cbn in *; [ | done | done].
  by etrans; [ | apply Hf].
Qed.

Lemma always_if {A} (b : bool) (m1 m2 : M A) :
  always R m1 → always R m2 → always R (if b then m1 else m2).
Proof. by destruct b. Qed.

Lemma always_usb_write data : always R (usb_write data).
Proof. intros c. apply R_write. Qed.

Lemma always_usb_read PY2 : always R (usb_read PY2).
Proof. intros c. apply R_read. Qed.

Lemma always_store_Targets chan v :
  always R (ts ← get Targets; ts' ← pure (setitem ts chan v); set_Targets ts').
Proof.
  intros c. rewrite bind_run. cbn. rewrite bind_run, pure_run.
  destruct (setitem (Targets c) chan v) as [l | e | ] eqn:Hl; [ | done | done].
  by apply (R_Targets c chan v).
Qed.

Lemma always_store_Maxs chan v :
  always R (maxs ← get Maxs; maxs' ← pure (setitem maxs chan v); set_Maxs maxs').
Proof.
  intros c. rewrite bind_run. cbn. rewrite bind_run, pure_run.
  destruct (setitem (Maxs c) chan v) as [l | e | ] eqn:Hl; [ | done | done].
  by apply (R_Maxs c chan v).
Qed.

Create HintDb always.
#[local] Hint Resolve always_ret always_pure always_get always_bind always_if
  always_usb_write always_usb_read always_store_Targets always_store_Maxs
  : always.

Lemma always_item T chan : always R (item T chan).
Proof. unfold item. auto with always. Qed.

Lemma always_cmd4 PY2 op chan lsb msb : always R (cmd4 PY2 op chan lsb msb).
Proof. unfold cmd4. auto 10 with always. Qed.

Lemma always_sendCmd PY2 cmd : always R (sendCmd PY2 cmd).
Proof. unfold sendCmd. auto 6 with always. Qed.

#[local] Hint Resolve always_item always_cmd4 always_sendCmd : always.

Lemma always_setRange chan mn mx : always R (setRange chan mn mx).
Proof.
  intros c. unfold setRange. rewrite bind_run. cbn. rewrite bind_run, pure_run.
  destruct (setitem (Mins c) chan mn) as [l | e | ] eqn:Hl; [ | done | done].
  rewrite bind_run.
  pose proof (R_Mins c chan mn l Hl) as Hstep.
  destruct (set_Mins l c) as [[[] | e | ] c1] eqn:Hset; [ | done | done].
  etrans; [exact Hstep | ]. apply always_store_Maxs.
Qed.

Lemma always_setTarget PY2 chan target : always R (setTarget PY2 chan target).
Proof.
  unfold setTarget.
  do 8 (apply always_bind; [auto 8 with always | intros ?]).
  apply always_store_Targets.
Qed.

Lemma always_setSpeed PY2 chan speed : always R (setSpeed PY2 chan speed).
Proof. unfold setSpeed. auto with always. Qed.

Lemma always_setAccel PY2 chan accel : always R (setAccel PY2 chan accel).
Proof. unfold setAccel. auto with always. Qed.

Lemma always_getPosition PY2 chan : always R (getPosition PY2 chan).
Proof. unfold getPosition. auto 16 with always. Qed.

#[local] Hint Resolve always_setRange always_setTarget always_setSpeed always_setAccel
  always_getPosition : always.

Lemma always_isMoving PY2 chan : always R (isMoving PY2 chan).
Proof. unfold isMoving. auto 10 with always. Qed.

Lemma always_getMovingState PY2 : always R (getMovingState PY2).
Proof. unfold getMovingState. auto 10 with always. Qed.

Lemma always_runScriptSub PY2 n : always R (runScriptSub PY2 n).
Proof. unfold runScriptSub. auto 10 with always. Qed.

Lemma always_stopScript PY2 : always R (stopScript PY2).
Proof. unfold stopScript. auto 10 with always. Qed.

Lemma always_resetAll PY2 : always R (resetAll PY2).
Proof. unfold resetAll. auto 20 with always. Qed.

Lemma always_loop_body PY2 x : always R (loop_body PY2 x).
Proof.
  unfold loop_body.
  repeat (apply always_if; [ | ]);
    unfold moveForward, moveForwarder, moveForwardest, moveBackward,
      moveBackwarder, moveBackwardest, turnLeft, turnRight, stopMotion,
      tiltHeadUp, tiltHeadDown, rotateHeadLeft, rotateHeadRight;
    auto 12 using always_resetAll with always.
Qed.

Lemma always_key_loop lines printed c : R c (key_loop lines printed c).2.
Proof.
  revert printed c. induction lines as [ | x rest IH]; intros printed c.
  - reflexivity.
  - cbn [key_loop]. pose proof (always_loop_body false x c) as Hstep.
    destruct (loop_body false x c) as [[msg | e | ] c1]; cbn in *; [ | done | done].
    by etrans; [ | apply IH].
Qed.

End Always.

#[local] Instance same_layout_preorder : PreOrder same_layout.
Proof.
  split; [by intros c | ].
  intros c1 c2 c3 H12 H23. unfold same_layout in *. congruence.
Qed.

Lemma setitem_length (l : list Z) chan v l' :
  setitem l chan v = Ok l' → length l' = length l.
Proof.
  unfold setitem. destruct (py_index l chan); [ | done].
  intros [= <-]. apply length_insert.
Qed.

Lemma same_layout_ready dev c c' : same_layout c c' → ready dev c → ready dev c'.
Proof.
  unfold same_layout, layout. intros [= Hpre HlenT HlenMin HlenMax Hopen Hline].
  intros (? & ? & ? & ? & ? & ? & ?). unfold ready, framed.
  rewrite Hpre, HlenT, HlenMin, HlenMax, Hopen, Hline. done.
Qed.

Lemma same_layout_write data c : same_layout c (usb_write data c).2.
Proof.
  unfold usb_write, Serial_write, same_layout, layout.
  by destruct (is_open (usb c)) eqn:?, (line_ok (usb c)) eqn:?; cbn; rewrite ?Heqb, ?Heqb0.
Qed.

Lemma same_layout_read PY2 c : same_layout c (usb_read PY2 c).2.
Proof.
  unfold usb_read, Serial_read, same_layout, layout.
  destruct (is_open (usb c)) eqn:Hopen, (line_ok (usb c)) eqn:Hline; cbn;
    rewrite ?Hopen, ?Hline; try done.
  destruct (rx (usb c)); cbn; by rewrite ?Hopen, ?Hline.
Qed.

Lemma same_layout_Targets c chan v l :
  setitem (Targets c) chan v = Ok l → same_layout c (set_Targets l c).2.
Proof.
  intros Hl. unfold same_layout, layout. cbn. by rewrite (setitem_length _ _ _ _ Hl).
Qed.

Lemma same_layout_Mins c chan v l :
  setitem (Mins c) chan v = Ok l → same_layout c (set_Mins l c).2.
Proof.
  intros Hl. unfold same_layout, layout. cbn. by rewrite (setitem_length _ _ _ _ Hl).
Qed.

Lemma same_layout_Maxs c chan v l :
  setitem (Maxs c) chan v = Ok l → same_layout c (set_Maxs l c).2.
Proof.
  intros Hl. unfold same_layout, layout. cbn. by rewrite (setitem_length _ _ _ _ Hl).
Qed.

Lemma loop_body_ready PY2 dev x c :
  ready dev c → ready dev (loop_body PY2 x c).2.
Proof.
  intros Hready. apply (same_layout_ready dev c); [ | done].
  apply (always_loop_body same_layout same_layout_write same_layout_read
           same_layout_Targets same_layout_Mins same_layout_Maxs).
Qed.

(** X15: no method other than [close] changes the lead-in bytes, the size of
    a table or the state of the port, whether it returns, raises or blocks;
    so a ready controller is still ready after any call and, on Python 3,
    after any turn of the key loop and when the key loop stops. *)
Theorem X15_methods_keep_ready PY2 dev c :
  ready dev c →
  (∀ chan mn mx, ready dev (setRange chan mn mx c).2)
  ∧ (∀ chan target, ready dev (setTarget PY2 chan target c).2)
  ∧ (∀ chan speed, ready dev (setSpeed PY2 chan speed c).2)
  ∧ (∀ chan accel, ready dev (setAccel PY2 chan accel c).2)
  ∧ (∀ chan, ready dev (getPosition PY2 chan c).2)
  ∧ (∀ chan, ready dev (isMoving PY2 chan c).2)
  ∧ ready dev (getMovingState PY2 c).2
  ∧ (∀ n, ready dev (runScriptSub PY2 n c).2)
  ∧ ready dev (stopScript PY2 c).2
  ∧ (∀ x, ready dev (loop_body false x c).2)
  ∧ (∀ lines printed, ready dev (key_loop lines printed c).2).
Proof.
  intros Hready.
  pose proof same_layout_Targets as HT. pose proof same_layout_Mins as HMin.
  pose proof same_layout_Maxs as HMax.
  pose proof same_layout_write as HW. pose proof same_layout_read as HR.
  assert (Hkeep : ∀ c', same_layout c c' → ready dev c').
  { intros c' Hsame. by apply (same_layout_ready dev c). }
  split; [intros; apply Hkeep; by apply (always_setRange same_layout) | ].
  split; [intros; apply Hkeep; by apply (always_setTarget same_layout) | ].
  split; [intros; apply Hkeep; by apply (always_setSpeed same_layout) | ].
  split; [intros; apply Hkeep; by apply (always_setAccel same_layout) | ].
  split; [intros; apply Hkeep; by apply (always_getPosition same_layout) | ].
  split; [intros; apply Hkeep; by apply (always_isMoving same_layout) | ].
  split; [intros; apply Hkeep; by apply (always_getMovingState same_layout) | ].
  split; [intros; apply Hkeep; by apply (always_runScriptSub same_layout) | ].
  split; [intros; apply Hkeep; by apply (always_stopScript same_layout) | ].
  split; [intros; apply Hkeep; by apply (always_loop_body same_layout) | ].
  intros; apply Hkeep; by apply (always_key_loop same_layout).
Qed.

Lemma X15_witness :
  ready 0x0c (default_controller [])
  ∧ ready 0x0c (key_loop ["q"; "i"; "s"]%string [] (default_controller [])).2.
Proof.
  assert (Hready : ready 0x0c (default_controller [])).
  { unfold ready, framed; cbn. repeat split; lia. }
  split; [exact Hready | ].
  destruct (X15_methods_keep_ready false 0x0c (default_controller []) Hready)
    as (_ & _ & _ & _ & _ & _ & _ & _ & _ & _ & Hloop).
  apply Hloop.
Defined.

(** ** The key loop *)

(** A turn of the loop for a key that does not ask for a position: some
    message is printed and no answer byte is taken. *)
Lemma loop_body_without_position dev c x :
  ready dev c → asks_position x = false →
  ∃ msg c', loop_body false x c = (Ok msg, c') ∧ rx (usb c') = rx (usb c).
Proof.
  intros Hready Hask. unfold asks_position in Hask.
  apply orb_false_elim in Hask as [Hask Hl].
  apply orb_false_elim in Hask as [Hask Hj].
  apply orb_false_elim in Hask as [Hi Hk].
  unfold loop_body.
  do 17 (lazymatch goal with
         | |- context [if String.eqb x ?k then _ else _] =>
             let E := fresh "E" in
             destruct (String.eqb x k) eqn:E; lazy iota;
             [ lazymatch goal with
               | |- ∃ _ _, (?g ≫= _) _ = _ ∧ _ =>
                   let g' := eval cbv beta delta
                     [moveForward moveForwarder moveForwardest moveBackward
                      moveBackwarder moveBackwardest turnLeft turnRight
                      stopMotion] in g in
                   lazymatch g' with
                   | setRange ?chan ?lo ?hi ≫= _ =>
                       lazymatch g' with
                       | context [setTarget _ _ ?target] =>
                           (* range, speed, target *)
                           eexists _, _; split;
                           [ erewrite (bind_Ok g)
                               by (apply (gesture_run false dev c chan lo hi target);
                                   [done | lia | lia | lia]);
                             reflexivity
                           | reflexivity ]
                       end
                   | setSpeed _ _ _ =>
                       (* speed, target *)
                       eexists _, _; split;
                       [ erewrite bind_Ok
                           by (apply (setSpeed_run _ dev); [done | lia]);
                         erewrite bind_Ok
                           by (apply (setTarget_clamped_run _ dev);
                               [by apply ready_sent | lia]);
                         reflexivity
                       | reflexivity ]
                   | resetAll _ =>
                       eexists _, _; split;
                       [ erewrite bind_Ok by (by apply (resetAll_run _ dev));
                         reflexivity
                       | reflexivity ]
                   | _ => (* a position key: excluded *) congruence
                   end
               end
             | ]
         end).
  eexists _, _. split; reflexivity.
Qed.

(** X17: on Python 3, started on a ready controller with lines none of
    which is [i], [k], [j] or [l], the key loop handles every line: it prints
    one message per line, takes no answer byte from the device, neither
    raises nor blocks, and stops only when the input has run out, with the
    controller still ready. *)
Theorem X17_key_loop_without_position_keys dev lines :
  ∀ printed c,
  ready dev c → Forall (λ x, asks_position x = false) lines →
  ∃ msgs c',
    key_loop lines printed c = (printed ++ msgs, EndOfInput, c')
    ∧ length msgs = length lines
    ∧ ready dev c'
    ∧ rx (usb c') = rx (usb c).
Proof.
  induction lines as [ | x rest IH]; intros printed c Hready Hlines.
  - exists [], c. cbn. by rewrite app_nil_r.
  - apply Forall_cons_1 in Hlines as [Hx Hrest].
    destruct (loop_body_without_position dev c x Hready Hx)
      as (msg & c1 & Hbody & Hrx1).
    assert (Hready1 : ready dev c1).
    { pose proof (loop_body_ready false dev x c Hready) as Hkeep.
      by rewrite Hbody in Hkeep. }
    destruct (IH (printed ++ [msg]) c1 Hready1 Hrest)
      as (msgs & c' & Hloop & Hlen & Hready' & Hrx').
    exists (msg :: msgs), c'. cbn [key_loop]. rewrite Hbody, Hloop.
    split; [by rewrite <- app_assoc | ].
    split; [cbn; by rewrite Hlen | ].
    split; [done | congruence].
Qed.

Lemma X17_witness :
  ready 0x0c (default_controller [])
  ∧ ∃ msgs c',
      key_loop ["q"; "?"; "d"; "r"]%string [] (default_controller [])
      = (msgs, EndOfInput, c')
      ∧ length msgs = 4%nat.
Proof.
  assert (Hready : ready 0x0c (default_controller [])).
  { unfold ready, framed; cbn. repeat split; lia. }
  split; [exact Hready | ].
  destruct (X17_key_loop_without_position_keys
              0x0c ["q"; "?"; "d"; "r"]%string [] (default_controller [])
              Hready ltac:(repeat constructor))
    as (msgs & c' & Hloop & Hlen & _).
  exists msgs, c'. split; [exact Hloop | exact Hlen].
Defined.

Lemma relative_gesture_silent PY2 dev c chan (go : Z → bool) (next : Z → Z) :
  ready dev c → 0 <= chan < 24 → rx (usb c) = [] →
  (setRange chan 4000 8000 ;;
   setSpeed PY2 chan 1000 ;;
   pos ← getPosition PY2 chan;
   if go pos
   then pos' ← getPosition PY2 chan; setTarget PY2 chan (next pos')
   else mret tt) c
  = (Hang,
     sent [0xaa; dev; 0x10; chan]
       (sent (frame dev 0x07 chan 1000) (ranged chan 4000 8000 c))).
Proof.
  intros Hready Hchan Hrx.
  erewrite bind_Ok by (apply (setRange_run dev); [by apply ready_framed | done]).
  fold (ranged chan 4000 8000 c).
  erewrite bind_Ok by (apply (setSpeed_run _ dev); [by apply ready_ranged | lia]).
  rewrite bind_run.
  rewrite (getPosition_silent _ dev);
    [done | by apply ready_sent, ready_ranged | lia | done].
Qed.

(** X18: on Python 3, when the device sends nothing, a turn of the key loop
    for one of the keys [i], [k], [j], [l] never ends: the range is recorded, the speed
    frame and one position query are sent, the read blocks, and the loop
    prints nothing for that line or any later one. *)
Theorem X18_key_loop_blocks_on_silent_device dev c x rest printed :
  ready dev c → rx (usb c) = [] → asks_position x = true →
  ∃ chan, (chan = 3 ∨ chan = 4)
    ∧ key_loop (x :: rest) printed c
      = (printed, Blocked,
         sent [0xaa; dev; 0x10; chan]
           (sent (frame dev 0x07 chan 1000) (ranged chan 4000 8000 c))).
Proof.
  intros Hready Hrx Hask. unfold asks_position in Hask.
  assert (Hkey : x = "i"%string ∨ x = "k"%string ∨ x = "j"%string ∨ x = "l"%string).
  { repeat (apply orb_prop in Hask as [Hask | Hask]);
      apply String.eqb_eq in Hask; tauto. }
  assert (Hturn : ∀ chan (g : M unit) (msg : string),
    g c = (Hang, sent [0xaa; dev; 0x10; chan]
                   (sent (frame dev 0x07 chan 1000) (ranged chan 4000 8000 c))) →
    loop_body false x c = (g ;; mret msg) c →
    key_loop (x :: rest) printed c
    = (printed, Blocked,
       sent [0xaa; dev; 0x10; chan]
         (sent (frame dev 0x07 chan 1000) (ranged chan 4000 8000 c)))).
  { intros chan g msg Hg Hbody. cbn [key_loop].
    by rewrite Hbody, bind_run, Hg. }
  destruct Hkey as [-> | [-> | [-> | ->]]].
  - exists 4. split; [by right | ].
    apply (Hturn 4 (tiltHeadUp false) "tilting head up"%string); [ | reflexivity].
    by apply (relative_gesture_silent false dev c 4
                (λ pos, bool_decide (pos < 8000)) (λ pos, pos + 1000)).
  - exists 4. split; [by right | ].
    apply (Hturn 4 (tiltHeadDown false) "tilting head down"%string); [ | reflexivity].
    by apply (relative_gesture_silent false dev c 4
                (λ pos, bool_decide (pos > 4000)) (λ pos, pos - 1000)).
  - exists 3. split; [by left | ].
    apply (Hturn 3 (rotateHeadLeft false) "rotating head left"%string); [ | reflexivity].
    by apply (relative_gesture_silent false dev c 3
                (λ pos, bool_decide (pos > 4000)) (λ pos, pos - 1000)).
  - exists 3. split; [by left | ].
    apply (Hturn 3 (rotateHeadRight false) "rotating head right"%string); [ | reflexivity].
    by apply (relative_gesture_silent false dev c 3
                (λ pos, bool_decide (pos < 8000)) (λ pos, pos + 1000)).
Qed.

Lemma X18_witness :
  ready 0x0c (default_controller [])
  ∧ ∃ chan, (chan = 3 ∨ chan = 4)
    ∧ key_loop ["l"; "q"]%string [] (default_controller [])
      = ([], Blocked,
         sent [0xaa; 0x0c; 0x10; chan]
           (sent (frame 0x0c 0x07 chan 1000)
              (ranged chan 4000 8000 (default_controller [])))).
Proof.
  assert (Hready : ready 0x0c (default_controller [])).
  { unfold ready, framed; cbn. repeat split; lia. }
  split; [exact Hready | ].
  exact (X18_key_loop_blocks_on_silent_device
           0x0c (default_controller []) "l"%string ["q"%string] []
           Hready eq_refl eq_refl).
Defined.

(** ** Script commands *)

(** X19: on a ready controller [stopScript] sends [0xAA, device, 0x24], and
    [runScriptSub] sends [0xAA, device, 0x27, subNumber] for a subroutine
    number 0..255.  For the other numbers that fit a C [int]
    (-2^31 .. 2^31-1), a negative number raises [ValueError], a number above
    255 raises [ValueError] on Python 2 (and from 0x110000 on) and
    [UnicodeEncodeError] on Python 3.  On Python 3 a number that does not fit
    a C [int] raises [OverflowError].  Nothing is sent in these cases, and
    neither method reads from the device or touches a table. *)
Theorem X19_script_commands PY2 dev c subNumber :
  ready dev c →
  stopScript PY2 c = (Ok tt, sent [0xaa; dev; 0x24] c)
  ∧ (-2147483648 <= subNumber < 2147483648 →
     runScriptSub PY2 subNumber c
     = (if bool_decide (0 <= subNumber < 256)
        then (Ok tt, sent [0xaa; dev; 0x27; subNumber] c)
        else if bool_decide (subNumber < 0) || PY2
                || bool_decide (1114112 <= subNumber)
             then (Raise ValueError, c)
             else (Raise UnicodeEncodeError, c)))
  ∧ (subNumber < -2147483648 ∨ 2147483648 <= subNumber →
     runScriptSub false subNumber c = (Raise OverflowError, c)).
Proof.
  intros Hready. split.
  { unfold stopScript. rewrite bind_run, pure_run, chr_byte by lia.
    apply (sendCmd_run _ dev); [done | repeat constructor; lia]. }
  split.
  - intros Hfit.
    unfold runScriptSub. rewrite bind_run, pure_run, chr_byte by lia.
    rewrite bind_run, pure_run.
    case_bool_decide as Hbyte.
    { rewrite chr_byte by done.
      apply (sendCmd_run _ dev); [done | repeat constructor; lia]. }
    case_bool_decide as Hneg; [by rewrite chr_negative by lia | ].
    destruct PY2; [by rewrite chr_python2_large by lia | ].
    case_bool_decide as Hbig; [by rewrite chr_python3_large by lia | ].
    rewrite chr_python3 by lia. cbn.
    destruct Hready as (_ & _ & Hpre & _).
    unfold sendCmd. rewrite bind_run. cbn. rewrite bind_run, pure_run.
    rewrite (encode_latin1_wide _ subNumber); [done | | lia].
    rewrite Hpre. apply list_elem_of_In. cbn. tauto.
  - intros Hbig.
    unfold runScriptSub. rewrite bind_run, pure_run, chr_byte by lia.
    rewrite bind_run, pure_run. by rewrite chr_python3_overflow.
Qed.

Lemma X19_witness :
  ready 0x0c (default_controller [])
  ∧ runScriptSub false 2 (default_controller [])
    = (Ok tt, sent [0xaa; 0x0c; 0x27; 0x02] (default_controller [])).
Proof.
  assert (Hready : ready 0x0c (default_controller [])).
  { unfold ready, framed; cbn. repeat split; lia. }
  split; [exact Hready | ].
  exact (proj1 (proj2 (X19_script_commands
                         false 0x0c (default_controller []) 2 Hready))
           ltac:(lia)).
Defined.
